(** * Matching climate stations to gridMET cells

    A shallow embedding of [prep_input.py]: the centroid transform
    [gridMET_centroid], the station list reader [read_station_list], the
    nearest-neighbour join [join_station_to_gridmet] and the entry point
    [main], followed by the properties of the written specification.

    Conventions of the embedding.
    - A Python float is a binary64 number: a primitive float of the
      kernel, with its IEEE 754 arithmetic (round to nearest, ties to
      even).  A decimal literal of the source denotes the float Python
      reads it as.
    - A missing cell of a table (pandas' NaN) is the value [NaN] of
      [scalar]; in arithmetic it is the float [nan].
    - A raised exception is the [Raise] outcome of a computation in the
      monad [Py], which also records what was read, printed and saved.
    - [scipy.spatial.KDTree] is a library outside the repository: it enters
      as the interface [SpatialIndex]. *)

From Stdlib Require Import ZArith List String Ascii Bool.
From Stdlib Require Import Lia.
From Stdlib Require Import PrimFloat SpecFloat FloatOps FloatAxioms.
Import ListNotations.

Set Warnings "-inexact-float".

(** ** Python values and exceptions *)

(** A scalar as pandas hands it out of a CSV column: an integer, a float,
    the missing value, or text. *)
Inductive scalar : Type :=
| Int (z : Z)
| Float (f : float)
| NaN
| Str (s : string).

Inductive exn : Type :=
| FileNotFoundError
| IndexError
| ValueError
| TypeError
| OverflowError
| AttributeError.

Inductive result (A : Type) : Type :=
| Ok (a : A)
| Raise (e : exn).

Arguments Ok {A} a.
Arguments Raise {A} e.

(** ** The centroid transform *)

Module Centroid.

Open Scope float_scope.

(** Python's [int(x)] on a float: truncation toward zero, [ValueError] on
    a NaN and [OverflowError] on an infinity. *)
Definition int (x : float) : result Z :=
  match Prim2SF x with
  | S754_zero _ => Ok 0%Z
  | S754_finite s m e =>
      let magnitude := (if (0 <=? e)%Z then Z.shiftl (Zpos m) e
                        else Z.shiftr (Zpos m) (- e))%Z in
      Ok (if s then (- magnitude)%Z else magnitude)
  | S754_infinity _ => Raise OverflowError
  | S754_nan => Raise ValueError
  end.

(** The conversion of an integer operand to a float. *)
Definition of_int (z : Z) : float :=
  SF2Prim (binary_normalize prec emax z 0 false).

(** The float a scalar stands for as an operand of [-]: an integer is
    converted, the missing value is [nan], and text makes the subtraction
    raise [TypeError]. *)
Definition as_float (v : scalar) : result float :=
  match v with
  | Int z => Ok (of_int z)
  | Float f => Ok f
  | NaN => Ok nan
  | Str _ => Raise TypeError
  end.

(** The three constants bound at the top of [gridMET_centroid]. *)
Definition gridmet_lon : float := -124.78749996666667.
Definition gridmet_lat : float := 25.04583333333334.
Definition gridmet_cs : float := 0.041666666666666664.

(** The latitude is computed to its end before the longitude is looked
    at, so an exception of the first hides one of the second. *)
Definition gridMET_centroid (lat lon : scalar) : result (float * float) :=
  match as_float lat with
  | Raise e => Raise e
  | Ok lat =>
  match int (abs (lat - gridmet_lat) / gridmet_cs) with
  | Raise e => Raise e
  | Ok i =>
  let gridcell_lat :=
    of_int i * gridmet_cs + gridmet_lat + gridmet_cs / 2 in
  match as_float lon with
  | Raise e => Raise e
  | Ok lon =>
  match int (abs (lon - gridmet_lon) / gridmet_cs) with
  | Raise e => Raise e
  | Ok j =>
  let gridcell_lon :=
    of_int j * gridmet_cs + gridmet_lon + gridmet_cs / 2 in
  Ok (gridcell_lat, gridcell_lon)
  end end end end.

End Centroid.

(** ** Effects *)

(** What the script prints: the banner of [main], the "no file" notice of
    [read_station_list] and the diagnostic of the [except] branch. *)
Inductive message : Type :=
| MsgPaths (station_csv gridmet_csv merged_csv : string)
| MsgNoFile (station directory : string)
| MsgNoMatch (fid : Z).

Record Csv : Type := { header : list string; body : list (list scalar) }.

Inductive event : Type :=
| Print (m : message)
| ReadCsv (path : string)
| ListDir (path : string)
| ToCsv (path : string) (table : Csv).

(** A computation yields the events it performed, in order, and either a
    value or the exception that ended it. *)
Definition Py (A : Type) : Type := (list event * result A)%type.

Definition ret {A : Type} (a : A) : Py A := ([], Ok a).

Definition raise {A : Type} (e : exn) : Py A := ([], Raise e).

Definition bind {A B : Type} (c : Py A) (k : A -> Py B) : Py B :=
  match c with
  | (ev, Ok a) => let (ev', r) := k a in (ev ++ ev', r)
  | (ev, Raise e) => (ev, Raise e)
  end.

Definition emit (e : event) : Py unit := ([e], Ok tt).

Definition lift {A : Type} (r : result A) : Py A := ([], r).

Declare Scope py_scope.
Delimit Scope py_scope with py.
Notation "x <- c ;; k" := (bind c (fun x => k))
  (at level 61, c at next level, right associativity) : py_scope.
Notation "c ;;; k" := (bind c (fun _ => k))
  (at level 61, right associativity) : py_scope.

(** Truthiness, as tested by [if match:] and [if not out_path:]. *)
Definition truthy_str (s : string) : bool := negb (String.eqb s "").

Definition truthy (o : option string) : bool :=
  match o with
  | Some s => truthy_str s
  | None => false
  end.

(** [if not x: x = d] on an optional command line argument. *)
Definition default_to (d : string) (x : option string) : string :=
  if negb (truthy x) then d
  else match x with Some p => p | None => d end.

(** [sub in s] on strings. *)
Fixpoint py_in (sub s : string) : bool :=
  prefix sub s ||
  match s with
  | EmptyString => false
  | String _ s' => py_in sub s'
  end.

(** [s.split('_')[0]]: the part of [s] before its first underscore. *)
Fixpoint split_get0 (s : string) : string :=
  match s with
  | EmptyString => EmptyString
  | String c s' => if Ascii.eqb c "_" then EmptyString else String c (split_get0 s')
  end.

(** ** Tables *)

Module Raw.

(** A row of the station CSV, under the column names of the file. *)
Record row : Type := {
  FID : Z;
  LATDECDEG : scalar;
  LONGDECDEG : scalar;
  Elev_m : scalar;
  FileName : string
}.

End Raw.

(** A row of the station list after the renaming of [read_station_list]. *)
Record station : Type := {
  FID : Z;
  STATION_LAT : scalar;
  STATION_LON : scalar;
  STATION_ELEV_M : scalar;
  STATION_FILE_PATH : string
}.

(** A row of the gridMET metadata file.  Its other columns are dropped by
    the final [reindex] and are left out. *)
Record grid_cell : Type := {
  GRIDMET_ID : Z;
  LAT : scalar;
  LON : scalar;
  ELEV_M : scalar
}.

(** ** The environment of a run *)

(** The file system as the script observes it.  [os.path] differs between
    platforms, so its three functions are fields as well.  [write_error]
    is the exception that opening a path for writing raises, if any (a
    directory that does not exist, a path that may not be written). *)
Record World : Type := {
  getcwd : string;
  path_exists : string -> bool;
  path_split : string -> string * string;
  path_join : string -> string -> string;
  abspath : string -> string;
  listdir : string -> list string;
  station_csv : string -> result (list Raw.row);
  gridmet_csv : string -> result (list grid_cell);
  write_error : string -> option exn
}.

(** [scipy.spatial.KDTree]: building the index over the centroids and
    [tree.query(pt)[1]], the position of the neighbour found. *)
Class SpatialIndex : Type := {
  tree : Type;
  KDTree : list (float * float) -> result tree;
  query : tree -> scalar * scalar -> result nat
}.

(** ** The program *)

Section Program.

Context {index : SpatialIndex}.
Variable w : World.

Local Open Scope py_scope.
Local Open Scope string_scope.

(** [pd.read_csv] on the two inputs. *)
Definition read_csv_stations (path : string) : Py (list Raw.row) :=
  emit (ReadCsv path) ;;; lift (station_csv w path).

Definition read_csv_gridmet (path : string) : Py (list grid_cell) :=
  emit (ReadCsv path) ;;; lift (gridmet_csv w path).

Definition os_listdir (path : string) : Py (list string) :=
  emit (ListDir path) ;;; ret (listdir w path).

(** Column selection and renaming, then the station name cut out of
    [FileName]. *)
Definition rename (r : Raw.row) : station :=
  {| FID := Raw.FID r;
     STATION_LAT := Raw.LATDECDEG r;
     STATION_LON := Raw.LONGDECDEG r;
     STATION_ELEV_M := Raw.Elev_m r;
     STATION_FILE_PATH := split_get0 (Raw.FileName r) |}.

Definition set_file_path (p : string) (s : station) : station :=
  {| FID := FID s;
     STATION_LAT := STATION_LAT s;
     STATION_LON := STATION_LON s;
     STATION_ELEV_M := STATION_ELEV_M s;
     STATION_FILE_PATH := p |}.

(** [station_list.loc[station_list.STATION_FILE_PATH == station,
    'STATION_FILE_PATH'] = p]. *)
Definition loc_assign (name p : string) (station_list : list station)
  : list station :=
  map (fun s => if String.eqb (STATION_FILE_PATH s) name
                then set_file_path p s else s) station_list.

(** The [for station in station_list.STATION_FILE_PATH] loop.  With the
    pinned pandas (0.23.4) iterating a column walks a copy of its values
    taken when the loop starts, so the names are a separate argument. *)
Fixpoint file_loop (path_root : string) (file_names names : list string)
    (station_list : list station) : Py (list station) :=
  match names with
  | [] => ret station_list
  | name :: rest =>
      match filter (py_in name) file_names with
      | [] => raise IndexError
      | match_ :: _ =>
          if truthy_str match_ then
            file_loop path_root file_names rest
              (loc_assign name (abspath w (path_join w path_root match_))
                 station_list)
          else
            emit (Print (MsgNoFile name (abspath w path_root))) ;;;
            file_loop path_root file_names rest station_list
      end
  end.

(** The directory whose entries are searched for the time series files. *)
Definition searched_dir (station_path : string) : string :=
  let (path_root, file_name) := path_split w station_path in
  if negb (String.eqb path_root "") && negb (String.eqb file_name "")
  then path_root else getcwd w.

Definition read_station_list (station_path : string) : Py (list station) :=
  raw <- read_csv_stations station_path ;;
  let station_list := map rename raw in
  let path_root := fst (path_split w station_path) in
  file_names <- os_listdir (searched_dir station_path) ;;
  file_loop path_root file_names (map STATION_FILE_PATH station_list)
    station_list.

(** [gridMET_centroid(pt[0], pt[1])] on the pair zipped from a metadata
    row, and the list comprehension over the rows. *)
Definition centroid_of (g : grid_cell) : result (float * float) :=
  Centroid.gridMET_centroid (LAT g) (LON g).

Fixpoint centroids (gridmet_meta : list grid_cell)
  : result (list (float * float)) :=
  match gridmet_meta with
  | [] => Ok []
  | g :: rest =>
      match centroid_of g with
      | Raise e => Raise e
      | Ok pt =>
          match centroids rest with
          | Raise e => Raise e
          | Ok pts => Ok (pt :: pts)
          end
      end
  end.

(** The [GRIDMET_ID] column of [stations] while the loop runs: absent
    ([None]) until the first assignment creates it, then one float per row,
    missing ([None]) where nothing was assigned. *)
Definition id_column : Type := option (list (option Z)).

Fixpoint set_nth {A : Type} (i : nat) (v : A) (l : list A) : list A :=
  match l, i with
  | [], _ => []
  | _ :: l', O => v :: l'
  | x :: l', S i' => x :: set_nth i' v l'
  end.

(** [stations.loc[index, 'GRIDMET_ID'] = ind] on a table of [n] rows. *)
Definition loc_set (n i : nat) (ind : nat) (col : id_column) : id_column :=
  Some (set_nth i (Some (Z.of_nat ind))
          (match col with
           | None => repeat None n
           | Some c => c
           end)).

(** The [for index, row in stations.iterrows()] loop with its
    [try]/[except]. *)
Fixpoint match_loop (t : tree) (n : nat) (i : nat) (rows : list station)
    (col : id_column) : Py id_column :=
  match rows with
  | [] => ret col
  | row :: rest =>
      match query t (STATION_LAT row, STATION_LON row) with
      | Ok ind => match_loop t n (S i) rest (loc_set n i ind col)
      | Raise _ =>
          emit (Print (MsgNoMatch (FID row))) ;;;
          match_loop t n (S i) rest col
      end
  end.

(** [column.astype(int)]: a missing value cannot be converted. *)
Fixpoint astype_int (c : list (option Z)) : result (list Z) :=
  match c with
  | [] => Ok []
  | None :: _ => Raise ValueError
  | Some z :: rest =>
      match astype_int rest with
      | Ok zs => Ok (z :: zs)
      | Raise e => Raise e
      end
  end.

(** [stations.GRIDMET_ID = stations.GRIDMET_ID.astype(int)]: reading the
    attribute of a column that was never created fails. *)
Definition gridmet_id_astype_int (col : id_column) : result (list Z) :=
  match col with
  | None => Raise AttributeError
  | Some c => astype_int c
  end.

(** A row of [stations.merge(gridmet_meta, on='GRIDMET_ID')]: a station,
    its key and a metadata row with that key. *)
Definition merged : Type := (station * Z * grid_cell)%type.

Definition merge (stations : list (station * Z))
    (gridmet_meta : list grid_cell) : list merged :=
  flat_map
    (fun l => map (fun g => (fst l, snd l, g))
                (filter (fun g => Z.eqb (GRIDMET_ID g) (snd l)) gridmet_meta))
    stations.

(** The labelled values of a merged row, in the column order of the merge:
    those of the left table, then those of the right one but the key. *)
Definition items (m : merged) : list (string * scalar) :=
  let '(s, id, g) := m in
  [ ("FID", Int (FID s));
    ("STATION_LAT", STATION_LAT s);
    ("STATION_LON", STATION_LON s);
    ("STATION_ELEV_M", STATION_ELEV_M s);
    ("STATION_FILE_PATH", Str (STATION_FILE_PATH s));
    ("GRIDMET_ID", Int id);
    ("LAT", LAT g);
    ("LON", LON g);
    ("ELEV_M", ELEV_M g) ].

Fixpoint get (column : string) (row : list (string * scalar)) : scalar :=
  match row with
  | [] => NaN
  | (c, v) :: rest => if String.eqb c column then v else get column rest
  end.

(** [out_df.reindex(columns=...)]: the listed columns in the listed order,
    a column the table lacks being filled with the missing value. *)
Definition reindex (columns : list string) (out_df : list merged) : Csv :=
  {| header := columns;
     body := map (fun m => map (fun c => get c (items m)) columns) out_df |}.

Definition out_columns : list string :=
  [ "GRIDMET_ID"; "LAT"; "LON"; "ELEV_M"; "FID"; "STATION_LAT";
    "STATION_LON"; "STATION_ELEV_M"; "STATION_FILE_PATH" ].

(** [out_df.to_csv(path, index=False)]: the table is saved unless the path
    cannot be opened for writing. *)
Definition to_csv (path : string) (out_df : Csv) : Py unit :=
  match write_error w path with
  | Some e => raise e
  | None => emit (ToCsv path out_df)
  end.

Definition join_station_to_gridmet (station_list gridmet_meta_path : string)
    (out_path : option string) : Py unit :=
  stations <- read_station_list station_list ;;
  gridmet_meta <- read_csv_gridmet gridmet_meta_path ;;
  gridmet_pts <- lift (centroids gridmet_meta) ;;
  t <- lift (KDTree gridmet_pts) ;;
  col <- match_loop t (List.length stations) 0 stations None ;;
  ids <- lift (gridmet_id_astype_int col) ;;
  let out_df := merge (combine stations ids) gridmet_meta in
  let out_df := reindex out_columns out_df in
  if negb (truthy out_path)
  then to_csv "merged_input.csv" out_df
  else to_csv (match out_path with Some p => p | None => "" end) out_df.

Definition main (station_file : string)
    (gridmet_meta_file out_path : option string) : Py unit :=
  let gridmet_meta_file := default_to "gridmet_cell_data.csv" gridmet_meta_file in
  if negb (path_exists w gridmet_meta_file) then raise FileNotFoundError
  else
    let out_path := default_to "merged_input.csv" out_path in
    emit (Print (MsgPaths (path_join w (getcwd w) station_file)
                   (path_join w (getcwd w) gridmet_meta_file)
                   (path_join w (getcwd w) out_path))) ;;;
    join_station_to_gridmet station_file gridmet_meta_file (Some out_path).

End Program.

(** ** Vocabulary of the statements *)

Section Vocabulary.

Context {index : SpatialIndex}.

(** What the loop leaves in the [GRIDMET_ID] cell of a row. *)
Definition assigned (t : tree) (s : station) : option Z :=
  match query t (STATION_LAT s, STATION_LON s) with
  | Ok ind => Some (Z.of_nat ind)
  | Raise _ => None
  end.

Definition is_some {A : Type} (o : option A) : bool :=
  match o with Some _ => true | None => false end.

(** The column after the rows whose cells are [a] were visited, in a table
    of [n] rows. *)
Definition column_after (n : nat) (a : list (option Z)) : id_column :=
  if existsb is_some a then Some (a ++ repeat None (n - List.length a))
  else None.

Definition diagnostics (t : tree) (rows : list station) : list event :=
  map (fun s => Print (MsgNoMatch (FID s)))
      (filter (fun s => negb (is_some (assigned t s))) rows).

(** The column of identifiers once the loop is over. *)
Definition final_column (t : tree) (stations : list station) : id_column :=
  if existsb is_some (map (assigned t) stations)
  then Some (map (assigned t) stations) else None.

(** The row written for a merged row, and the rows written for a key. *)
Definition out_row (m : merged) : list scalar :=
  let '(s, id, g) := m in
  [ Int id; LAT g; LON g; ELEV_M g; Int (FID s); STATION_LAT s;
    STATION_LON s; STATION_ELEV_M s; Str (STATION_FILE_PATH s) ].

Definition rows_for (gridmet_meta : list grid_cell) (id : Z) : nat :=
  List.length (filter (fun g => Z.eqb (GRIDMET_ID g) id) gridmet_meta).

(** The number of metadata rows carrying the identifier given to a
    station. *)
Definition hits (t : tree) (gridmet_meta : list grid_cell) (s : station)
  : nat :=
  match assigned t s with
  | Some id => rows_for gridmet_meta id
  | None => O
  end.

(** The assumption of the comment "index of nearest GridMET point, same as
    GRIDMET_ID": every metadata row is numbered by its position. *)
Definition positional (gridmet_meta : list grid_cell) : Prop :=
  map GRIDMET_ID gridmet_meta
  = map Z.of_nat (seq 0 (List.length gridmet_meta)).

(** The values of a named column of a saved table. *)
Fixpoint position (c : string) (columns : list string) : option nat :=
  match columns with
  | [] => None
  | c' :: rest =>
      if String.eqb c' c then Some O
      else option_map S (position c rest)
  end.

Definition column (c : string) (table : Csv) : list scalar :=
  match position c (header table) with
  | Some i => map (fun row => nth i row NaN) (body table)
  | None => []
  end.

(** The station identifier carried by a merged row. *)
Definition station_fid (m : merged) : Z := FID (fst (fst m)).

End Vocabulary.

(** The sentence "one row per successfully matched station" read on a run:
    the saved table has the nine columns and as many rows as stations whose
    query returned. *)
Definition one_row_per_matched_station {index : SpatialIndex} (w : World)
    (station_list gridmet_meta_path : string) (out_path : option string)
  : Prop :=
  forall ev ev1 stations gridmet_meta pts t path table,
    join_station_to_gridmet w station_list gridmet_meta_path out_path
    = (ev, Ok tt) ->
    read_station_list w station_list = (ev1, Ok stations) ->
    gridmet_csv w gridmet_meta_path = Ok gridmet_meta ->
    centroids gridmet_meta = Ok pts ->
    KDTree pts = Ok t ->
    In (ToCsv path table) ev ->
    header table = out_columns /\
    List.length (body table)
    = List.length (filter (fun s => is_some (assigned t s)) stations).

(** The sentence "every station appears at most once in the output" read
    on a run, for a station table whose identifiers are distinct: no
    station identifier is repeated in the saved table. *)
Definition station_rows_never_repeat {index : SpatialIndex} (w : World)
    (station_list gridmet_meta_path : string) (out_path : option string)
  : Prop :=
  forall ev raw path table,
    join_station_to_gridmet w station_list gridmet_meta_path out_path
    = (ev, Ok tt) ->
    station_csv w station_list = Ok raw ->
    NoDup (map Raw.FID raw) ->
    In (ToCsv path table) ev ->
    NoDup (column "FID" table).

(** The environment a second run finds after a first one on the same
    inputs: the two tables, the paths and what may be written are as
    before, and so is the directory searched, except that the file the
    first run saved, named [saved_name], may now be listed in it, at any
    place. *)
Definition after_run (w1 w2 : World)
    (station_list gridmet_meta_path saved_name : string) : Prop :=
  station_csv w1 station_list = station_csv w2 station_list /\
  gridmet_csv w1 gridmet_meta_path = gridmet_csv w2 gridmet_meta_path /\
  path_split w1 station_list = path_split w2 station_list /\
  getcwd w1 = getcwd w2 /\
  filter (fun f => negb (String.eqb f saved_name))
    (listdir w1 (searched_dir w1 station_list))
  = filter (fun f => negb (String.eqb f saved_name))
      (listdir w2 (searched_dir w2 station_list)) /\
  (forall p, abspath w1 p = abspath w2 p) /\
  (forall a b, path_join w1 a b = path_join w2 a b) /\
  (forall p, write_error w1 p = write_error w2 p).

(** The sentence "running the match step twice on identical inputs
    produces identical output tables": a second run does and saves what
    the first did. *)
Definition rerun_reproduces_output {index : SpatialIndex}
    (station_list gridmet_meta_path : string) (out_path : option string)
    (saved_name : string) : Prop :=
  forall w1 w2,
    after_run w1 w2 station_list gridmet_meta_path saved_name ->
    join_station_to_gridmet w1 station_list gridmet_meta_path out_path
    = join_station_to_gridmet w2 station_list gridmet_meta_path out_path.

(** The sentence "gridMET_centroid(2*origin_lat - lat, lon) =
    gridMET_centroid(lat, lon), and likewise for the longitude", for every
    pair of floats. *)
Definition mirror_symmetric : Prop :=
  forall lat lon : float,
    Centroid.gridMET_centroid
      (Float (2 * Centroid.gridmet_lat - lat)%float) (Float lon)
    = Centroid.gridMET_centroid (Float lat) (Float lon) /\
    Centroid.gridMET_centroid
      (Float lat) (Float (2 * Centroid.gridmet_lon - lon)%float)
    = Centroid.gridMET_centroid (Float lat) (Float lon).

(** ** A reference spatial index and sample environments *)

(** Exhaustive search with the answers of the pinned scipy (1.1.0) at the
    edges: no index over an empty point list, [TypeError] for a text
    coordinate, and the point count as index when a coordinate is
    missing.  It instantiates [SpatialIndex] in the examples. *)
Module LinearScan.

Open Scope float_scope.

Definition dist2 (p q : float * float) : float :=
  (fst p - fst q) * (fst p - fst q) + (snd p - snd q) * (snd p - snd q).

Fixpoint nearest_from (pt : float * float) (pts : list (float * float))
    (i best : nat) (best_d : float) : nat :=
  match pts with
  | [] => best
  | p :: rest =>
      if best_d <=? dist2 p pt
      then nearest_from pt rest (S i) best best_d
      else nearest_from pt rest (S i) i (dist2 p pt)
  end.

Definition nearest (pt : float * float) (pts : list (float * float)) : nat :=
  match pts with
  | [] => O
  | p :: rest => nearest_from pt rest 1 0 (dist2 p pt)
  end.

Definition build (pts : list (float * float))
  : result (list (float * float)) :=
  match pts with
  | [] => Raise ValueError
  | _ :: _ => Ok pts
  end.

Definition lookup (pts : list (float * float)) (pt : scalar * scalar)
  : result nat :=
  match Centroid.as_float (fst pt), Centroid.as_float (snd pt) with
  | Ok x, Ok y =>
      if is_nan x || is_nan y then Ok (List.length pts)
      else Ok (nearest (x, y) pts)
  | _, _ => Raise TypeError
  end.

Definition linear_scan : SpatialIndex :=
  {| tree := list (float * float); KDTree := build; query := lookup |}.

(** The same search behind the check of later scipy releases, which
    reject a query point that is not finite with [ValueError]. *)
Definition lookup_finite (pts : list (float * float)) (pt : scalar * scalar)
  : result nat :=
  match Centroid.as_float (fst pt), Centroid.as_float (snd pt) with
  | Ok x, Ok y =>
      if is_finite x && is_finite y then Ok (nearest (x, y) pts)
      else Raise ValueError
  | _, _ => Raise TypeError
  end.

Definition strict_scan : SpatialIndex :=
  {| tree := list (float * float); KDTree := build; query := lookup_finite |}.

End LinearScan.

Module Sample.

Open Scope string_scope.
Open Scope float_scope.

(** A working directory [/data] holding the station CSV, the metadata file
    and the listed time series files. *)
Definition world (rows : list Raw.row) (cells : list grid_cell)
    (files : list string) : World :=
  {| getcwd := "/data";
     path_exists := fun p => String.eqb p "gridmet_cell_data.csv";
     path_split := fun p => ("", p);
     path_join := fun a b => if String.eqb a "" then b else a ++ "/" ++ b;
     abspath := fun p => "/data/" ++ p;
     listdir := fun _ => files;
     station_csv := fun _ => Ok rows;
     gridmet_csv := fun _ => Ok cells;
     write_error := fun _ => None |}.

Definition raw (fid : Z) (lat lon : scalar) (file : string) : Raw.row :=
  {| Raw.FID := fid; Raw.LATDECDEG := lat; Raw.LONGDECDEG := lon;
     Raw.Elev_m := Float 1200; Raw.FileName := file |}.

Definition cell (id : Z) (lat lon : float) : grid_cell :=
  {| GRIDMET_ID := id; LAT := Float lat; LON := Float lon;
     ELEV_M := Float 1500 |}.

Definition files : list string := ["stations.csv"; "A1_daily.xlsx"; "B2_daily.xlsx"].

(** Two cells whose identifiers are their row numbers, and the same two
    cells numbered from one. *)
Definition cells0 : list grid_cell := [cell 0 40 (-120); cell 1 41 (-119)].
Definition cells1 : list grid_cell := [cell 1 40 (-120); cell 2 41 (-119)].

Definition rows_ok : list Raw.row :=
  [raw 7 (Float 40.01) (Float (-119.99)) "A1_daily.xlsx";
   raw 8 (Float 41.02) (Float (-118.98)) "B2_daily.xlsx"].

(** A latitude column that pandas could not parse as numbers: every entry
    is text. *)
Definition rows_text : list Raw.row :=
  [raw 7 (Str "40.01") (Float (-119.99)) "A1_daily.xlsx";
   raw 8 (Str "unknown") (Float (-118.98)) "B2_daily.xlsx"].

(** An empty latitude cell: pandas reads it as the missing value. *)
Definition rows_nan : list Raw.row :=
  [raw 7 (Float 40.01) (Float (-119.99)) "A1_daily.xlsx";
   raw 8 NaN (Float (-118.98)) "B2_daily.xlsx"].

(** A station whose time series file is not in the directory. *)
Definition rows_missing : list Raw.row :=
  [raw 7 (Float 40.01) (Float (-119.99)) "A1_daily.xlsx";
   raw 9 (Float 40.50) (Float (-119.50)) "C3_daily.xlsx"].

(** The directory after a first run: the merged table has been saved. *)
Definition world_after (rows : list Raw.row) (cells : list grid_cell)
    (files : list string) : World :=
  {| getcwd := "/data";
     path_exists := fun p => String.eqb p "gridmet_cell_data.csv"
                             || String.eqb p "merged_input.csv";
     path_split := fun p => ("", p);
     path_join := fun a b => if String.eqb a "" then b else a ++ "/" ++ b;
     abspath := fun p => "/data/" ++ p;
     listdir := fun _ => "merged_input.csv" :: files;
     station_csv := fun _ => Ok rows;
     gridmet_csv := fun _ => Ok cells;
     write_error := fun _ => None |}.

(** A directory into which nothing can be written. *)
Definition world_read_only (rows : list Raw.row) (cells : list grid_cell)
    (files : list string) : World :=
  {| getcwd := "/data";
     path_exists := fun p => String.eqb p "gridmet_cell_data.csv";
     path_split := fun p => ("", p);
     path_join := fun a b => if String.eqb a "" then b else a ++ "/" ++ b;
     abspath := fun p => "/data/" ++ p;
     listdir := fun _ => files;
     station_csv := fun _ => Ok rows;
     gridmet_csv := fun _ => Ok cells;
     write_error := fun _ => Some FileNotFoundError |}.

End Sample.

(** ** Vocabulary of the reader *)

Section ReaderVocabulary.

Variable w : World.

Local Open Scope string_scope.

(** A row of the station list holds the data of a row of the CSV. *)
Definition same_station_data (r : Raw.row) (s : station) : Prop :=
  FID s = Raw.FID r /\
  STATION_LAT s = Raw.LATDECDEG r /\
  STATION_LON s = Raw.LONGDECDEG r /\
  STATION_ELEV_M s = Raw.Elev_m r.

(** The path written for a station name: the first entry of the directory
    that contains the name, joined to the root and made absolute. *)
Definition resolved (path_root : string) (file_names : list string)
    (name : string) : string :=
  abspath w (path_join w path_root (hd "" (filter (py_in name) file_names))).

Definition mem (n : string) (l : list string) : bool :=
  existsb (String.eqb n) l.

(** Where the loop of [read_station_list] stands: a row whose name has been
    visited holds its resolved path, any other row still holds its name. *)
Definition path_state (path_root : string) (file_names visited : list string)
    (name : string) (s : station) : Prop :=
  STATION_FILE_PATH s
  = if mem name visited then resolved path_root file_names name else name.

End ReaderVocabulary.

(** ** Inputs at the edges *)

Module EdgeSample.

Open Scope string_scope.
Open Scope float_scope.

(** A station whose [FileName] begins with an underscore: its name is the
    empty string. *)
Definition rows_underscore : list Raw.row :=
  [Sample.raw 7 (Float 40.01) (Float (-119.99)) "A1_daily.xlsx";
   Sample.raw 9 (Float 40.50) (Float (-119.50)) "_daily.xlsx"].

(** A metadata file with an empty latitude cell. *)
Definition cells_nan : list grid_cell :=
  [Sample.cell 0 40 (-120);
   {| GRIDMET_ID := 1; LAT := NaN; LON := Float (-119);
      ELEV_M := Float 1500 |}].

(** A metadata file in which the identifier 1 stands on two rows. *)
Definition cells_repeated : list grid_cell :=
  [Sample.cell 0 40 (-120); Sample.cell 1 41 (-119);
   Sample.cell 1 41.5 (-119)].

(** A station named [input], as the file saved by a run is named
    [merged_input.csv]. *)
Definition rows_input : list Raw.row :=
  [Sample.raw 7 (Float 40.01) (Float (-119.99)) "input_daily.xlsx";
   Sample.raw 8 (Float 41.02) (Float (-118.98)) "B2_daily.xlsx"].

Definition files_input : list string :=
  ["stations.csv"; "input_daily.xlsx"; "B2_daily.xlsx"].

End EdgeSample.

(** * Properties *)

(** ** The centroid transform *)

Module CentroidFacts.
Import Centroid.
Open Scope float_scope.

(** The float computed for the corner two cells above the origin lies a
    little under two cells from it: the quotient rounds to a number below
    2 and [int] cuts it to 1. *)
Example corner_quotient_truncated :
  gridmet_lat + 2 * gridmet_cs = 25.129166666666674 /\
  abs (25.129166666666674 - gridmet_lat) / gridmet_cs = 1.9999999999999716 /\
  int 1.9999999999999716 = Ok 1%Z.
Proof. vm_compute. repeat split; reflexivity. Qed.

(** C3. The cell lattice holds corners whose centroid, as computed by
    [gridMET_centroid], lies outside the cell: for the corner two cells
    north and five cells east of the origin, formed as Python forms it,
    the function returns the centroid of the cell to the south-west, below
    the corner on both axes. *)
Theorem lattice_corner_outside_cell :
  let corner_lat := gridmet_lat + 2 * gridmet_cs in
  let corner_lon := gridmet_lon + 5 * gridmet_cs in
  exists c_lat c_lon,
    gridMET_centroid (Float corner_lat) (Float corner_lon)
    = Ok (c_lat, c_lon) /\
    c_lat = 25.108333333333341 /\ c_lon = -124.59999996666667 /\
    (c_lat <? corner_lat) = true /\ (c_lon <? corner_lon) = true.
Proof.
  intros corner_lat corner_lon.
  exists 25.108333333333341, (-124.59999996666667).
  vm_compute. repeat split; reflexivity.
Qed.

(** The miss is systematic: among the first thirty rows of the lattice
    the centroid falls under its corner at every third one. *)
Example every_third_row_misses :
  filter
    (fun i =>
       match gridMET_centroid
               (Float (gridmet_lat + of_int (Z.of_nat i) * gridmet_cs))
               (Float gridmet_lon) with
       | Ok (c_lat, _) =>
           c_lat <? gridmet_lat + of_int (Z.of_nat i) * gridmet_cs
       | Raise _ => false
       end)
    (seq 0 30)
  = [2; 5; 8; 11; 14; 17; 20; 23; 26; 29]%nat.
Proof. vm_compute. reflexivity. Qed.

(** C10, amended. [gridMET_centroid] sees each coordinate only through the
    float [abs (x - origin)] it computes: two latitudes at the same
    computed distance from the origin, and two longitudes likewise, get
    the same result.  This covers a point and its reflection
    [2 * origin - x] whenever the two computed distances agree. *)
Theorem gridMET_centroid_abs_distance (lat lat' lon lon' : float) :
  abs (lat - gridmet_lat) = abs (lat' - gridmet_lat) ->
  abs (lon - gridmet_lon) = abs (lon' - gridmet_lon) ->
  gridMET_centroid (Float lat) (Float lon)
  = gridMET_centroid (Float lat') (Float lon').
Proof.
  intros Hlat Hlon. unfold gridMET_centroid. cbn [as_float].
  rewrite Hlat, Hlon. reflexivity.
Qed.

Lemma gridMET_centroid_abs_distance_witness :
  gridMET_centroid (Float 24) (Float (-126))
  = gridMET_centroid (Float (2 * gridmet_lat - 24))
      (Float (2 * gridmet_lon - -126)).
Proof.
  apply (gridMET_centroid_abs_distance 24 (2 * gridmet_lat - 24)
           (-126) (2 * gridmet_lon - -126)); reflexivity.
Defined.

(** Reading the float out of a result, to tell two results apart. *)
Lemma results_differ (r r' : result (float * float)) (bound : float) :
  match r with Ok (c, _) => c <? bound | Raise _ => false end = true ->
  match r' with Ok (c, _) => c <? bound | Raise _ => false end = false ->
  r <> r'.
Proof. intros H H' E. rewrite E, H' in H. discriminate. Qed.

(** C10 as stated fails: the reflection is itself rounded.  At a latitude
    167 cells below the origin the two quotients fall on either side of
    167 and the two centroids are one cell apart. *)
Lemma mirror_symmetric_counterexample : ~ mirror_symmetric.
Proof.
  intro H. destruct (H 18.087500000000009 gridmet_lon) as [Hlat _].
  symmetry in Hlat. revert Hlat.
  apply (results_differ _ _ 32); vm_compute; reflexivity.
Qed.

Example reflection_rounded_into_next_cell :
  gridmet_lat - 167 * gridmet_cs = 18.087500000000009 /\
  2 * gridmet_lat - 18.087500000000009 = 32.004166666666677 /\
  gridMET_centroid (Float 18.087500000000009) (Float gridmet_lon)
  = Ok (31.983333333333338, -124.76666663333334) /\
  gridMET_centroid (Float 32.004166666666677) (Float gridmet_lon)
  = Ok (32.025000000000013, -124.76666663333334).
Proof. vm_compute. repeat split; reflexivity. Qed.

(** Outside the finite numbers the function raises: [ValueError] on a
    missing value, [OverflowError] on an infinity or when the quotient
    overflows, [TypeError] on text; and the latitude is looked at
    first. *)
Example gridMET_centroid_raises :
  gridMET_centroid NaN (Float gridmet_lon) = Raise ValueError /\
  gridMET_centroid (Float infinity) (Float gridmet_lon)
  = Raise OverflowError /\
  gridMET_centroid (Float 1e308) (Float gridmet_lon) = Raise OverflowError /\
  gridMET_centroid (Str "north") (Float gridmet_lon) = Raise TypeError /\
  gridMET_centroid (Float infinity) (Str "west") = Raise OverflowError.
Proof. vm_compute. repeat split; reflexivity. Qed.

End CentroidFacts.

(** ** Computations and the matching loop *)

Module PyFacts.

(** The equations of [bind] on the computations the program is made
    of. *)
Lemma bind_pair {A B : Type} (ev : list event) (a : A) (k : A -> Py B) :
  bind (ev, Ok a) k = (ev ++ fst (k a), snd (k a)).
Proof. unfold bind. now destruct (k a). Qed.

Lemma bind_emit {B : Type} (e : event) (k : unit -> Py B) :
  bind (emit e) k = (e :: fst (k tt), snd (k tt)).
Proof. unfold emit. now rewrite bind_pair. Qed.

Lemma bind_lift_ok {A B : Type} (a : A) (k : A -> Py B) :
  bind (lift (Ok a)) k = k a.
Proof. unfold lift, bind. now destruct (k a). Qed.

Lemma bind_lift_raise {A B : Type} (e : exn) (k : A -> Py B) :
  bind (lift (Raise e)) k = ([], Raise e).
Proof. reflexivity. Qed.

Lemma bind_ext {A B : Type} (c : Py A) (k1 k2 : A -> Py B) :
  (forall a, k1 a = k2 a) -> bind c k1 = bind c k2.
Proof. intro H. destruct c as [ev [a|e]]; simpl; [now rewrite H | reflexivity]. Qed.

End PyFacts.

Module MatchFacts.
Import PyFacts.

Section WithIndex.
Context {index : SpatialIndex}.

Lemma existsb_none (a : list (option Z)) :
  existsb is_some a = false -> a = repeat None (List.length a).
Proof.
  induction a as [|[z|] a IH]; simpl; intro H; try discriminate; auto.
  now rewrite <- IH.
Qed.

Lemma set_nth_app {A : Type} (a : list A) (v x : A) (l : list A) :
  set_nth (List.length a) v (a ++ x :: l) = a ++ v :: l.
Proof. induction a as [|y a IH]; simpl; [reflexivity | now rewrite IH]. Qed.

Lemma set_nth_repeat {A : Type} (x v : A) (i n : nat) :
  (i < n)%nat ->
  set_nth i v (repeat x n) = repeat x i ++ v :: repeat x (n - S i).
Proof.
  revert n. induction i as [|i IH]; intros [|n] H; try lia; simpl.
  - now rewrite Nat.sub_0_r.
  - now rewrite IH by lia.
Qed.

Lemma loc_set_column_after (n : nat) (a : list (option Z)) (ind : nat) :
  (List.length a < n)%nat ->
  loc_set n (List.length a) ind (column_after n a)
  = column_after n (a ++ [Some (Z.of_nat ind)]).
Proof.
  intro Hn. unfold loc_set, column_after.
  rewrite existsb_app. simpl. rewrite orb_true_r.
  rewrite length_app. simpl. rewrite <- app_assoc. simpl.
  replace (n - (List.length a + 1))%nat with (n - S (List.length a))%nat by lia.
  destruct (existsb is_some a) eqn:E.
  - replace (n - List.length a)%nat with (S (n - S (List.length a))) by lia.
    simpl repeat. now rewrite set_nth_app.
  - rewrite set_nth_repeat by exact Hn.
    now rewrite <- (existsb_none a E).
Qed.

Lemma column_after_skip (n : nat) (a : list (option Z)) :
  (List.length a < n)%nat ->
  column_after n (a ++ [None]) = column_after n a.
Proof.
  intro Hn. unfold column_after.
  rewrite existsb_app. simpl. rewrite orb_false_r.
  destruct (existsb is_some a); [|reflexivity].
  rewrite length_app. simpl. rewrite <- app_assoc. simpl.
  replace (n - List.length a)%nat with (S (n - (List.length a + 1))) by lia.
  reflexivity.
Qed.

Lemma assigned_ok (t : tree) (row : station) (ind : nat) :
  query t (STATION_LAT row, STATION_LON row) = Ok ind ->
  assigned t row = Some (Z.of_nat ind).
Proof. unfold assigned. now intros ->. Qed.

Lemma assigned_raise (t : tree) (row : station) (e : exn) :
  query t (STATION_LAT row, STATION_LON row) = Raise e ->
  assigned t row = None.
Proof. unfold assigned. now intros ->. Qed.

Lemma match_loop_cons_ok (t : tree) (n i : nat) (row : station)
    (rest : list station) (col : id_column) (ind : nat) :
  query t (STATION_LAT row, STATION_LON row) = Ok ind ->
  match_loop t n i (row :: rest) col
  = match_loop t n (S i) rest (loc_set n i ind col).
Proof. simpl. now intros ->. Qed.

Lemma match_loop_cons_raise (t : tree) (n i : nat) (row : station)
    (rest : list station) (col : id_column) (e : exn) :
  query t (STATION_LAT row, STATION_LON row) = Raise e ->
  match_loop t n i (row :: rest) col
  = (Print (MsgNoMatch (FID row)) :: fst (match_loop t n (S i) rest col),
     snd (match_loop t n (S i) rest col)).
Proof.
  simpl. intros ->. unfold bind, emit.
  now destruct (match_loop t n (S i) rest col).
Qed.

(** The loop never raises: it leaves the column described by [assigned]
    and prints one diagnostic per row whose query failed. *)
Lemma match_loop_spec (t : tree) (n : nat) (rest visited : list station) :
  n = List.length (visited ++ rest) ->
  match_loop t n (List.length visited) rest
    (column_after n (map (assigned t) visited))
  = (diagnostics t rest,
     Ok (column_after n (map (assigned t) (visited ++ rest)))).
Proof.
  revert visited. induction rest as [|row rest IH]; intros visited Hn.
  - simpl. now rewrite app_nil_r.
  - assert (Hlt : (List.length (map (assigned t) visited) < n)%nat).
    { rewrite length_map, Hn, length_app. simpl. lia. }
    assert (Hnext : n = List.length ((visited ++ [row]) ++ rest))
      by now rewrite <- app_assoc.
    specialize (IH (visited ++ [row]) Hnext).
    rewrite length_app in IH. simpl in IH. rewrite Nat.add_1_r in IH.
    rewrite map_app in IH. simpl in IH. rewrite <- app_assoc in IH.
    simpl in IH.
    unfold diagnostics. simpl filter. fold (diagnostics t rest).
    destruct (query t (STATION_LAT row, STATION_LON row)) as [ind|e] eqn:Eq.
    + rewrite (match_loop_cons_ok t n _ row rest _ ind Eq).
      rewrite (assigned_ok t row ind Eq) in *. simpl.
      pose proof (loc_set_column_after n (map (assigned t) visited) ind Hlt)
        as E.
      rewrite length_map in E. rewrite E. exact IH.
    + rewrite (match_loop_cons_raise t n _ row rest _ e Eq).
      rewrite (assigned_raise t row e Eq) in *. simpl.
      rewrite column_after_skip in IH by exact Hlt.
      rewrite IH. reflexivity.
Qed.

Lemma column_after_full (a : list (option Z)) :
  column_after (List.length a) a = if existsb is_some a then Some a else None.
Proof.
  unfold column_after. rewrite Nat.sub_diag. simpl. now rewrite app_nil_r.
Qed.

Lemma match_loop_run (t : tree) (stations : list station) :
  match_loop t (List.length stations) 0 stations None
  = (diagnostics t stations,
     Ok (if existsb is_some (map (assigned t) stations)
         then Some (map (assigned t) stations) else None)).
Proof.
  pose proof (match_loop_spec t (List.length stations) stations [] eq_refl)
    as H.
  change (match_loop t (List.length stations) 0 stations None = 
          (diagnostics t stations,
           Ok (column_after (List.length stations)
                 (map (assigned t) stations)))) in H.
  rewrite H. f_equal. f_equal.
  rewrite <- (length_map (assigned t) stations) at 1.
  apply column_after_full.
Qed.

Lemma astype_int_some (ids : list Z) : astype_int (map Some ids) = Ok ids.
Proof. induction ids as [|z ids IH]; simpl; [|rewrite IH]; reflexivity. Qed.

Lemma astype_int_inv (c : list (option Z)) (ids : list Z) :
  astype_int c = Ok ids -> c = map Some ids.
Proof.
  revert ids. induction c as [|[z|] c IH]; simpl; intros ids H.
  - now inversion H.
  - destruct (astype_int c) as [zs|e]; [|discriminate].
    inversion H; subst. simpl. now rewrite (IH zs eq_refl).
  - discriminate.
Qed.

Lemma astype_int_missing (c : list (option Z)) :
  In None c -> astype_int c = Raise ValueError.
Proof.
  induction c as [|[z|] c IH]; simpl; intro H; [contradiction| |reflexivity].
  destruct H as [H|H]; [discriminate|]. now rewrite (IH H).
Qed.

Lemma gridmet_id_inv (t : tree) (stations : list station) (ids : list Z) :
  gridmet_id_astype_int
    (if existsb is_some (map (assigned t) stations)
     then Some (map (assigned t) stations) else None) = Ok ids ->
  map (assigned t) stations = map Some ids /\ stations <> [].
Proof.
  destruct (existsb is_some (map (assigned t) stations)) eqn:E; simpl;
    [|discriminate].
  intro H. split; [now apply astype_int_inv|].
  intros ->. discriminate.
Qed.

Lemma gridmet_id_failed (t : tree) (stations : list station) (s : station) :
  In s stations -> assigned t s = None ->
  exists err,
    gridmet_id_astype_int
      (if existsb is_some (map (assigned t) stations)
       then Some (map (assigned t) stations) else None) = Raise err
    /\ (err = ValueError \/ err = AttributeError).
Proof.
  intros Hs Ha.
  destruct (existsb is_some (map (assigned t) stations)); simpl.
  - exists ValueError. split; [|now left].
    apply astype_int_missing. rewrite <- Ha. now apply in_map.
  - exists AttributeError. split; [reflexivity | now right].
Qed.

Lemma diagnostics_in (t : tree) (stations : list station) (s : station) :
  In s stations -> assigned t s = None ->
  In (Print (MsgNoMatch (FID s))) (diagnostics t stations).
Proof.
  intros Hs Ha. unfold diagnostics.
  apply (in_map (fun s => Print (MsgNoMatch (FID s)))).
  apply filter_In. split; [exact Hs | now rewrite Ha].
Qed.

Lemma diagnostics_nil (t : tree) (stations : list station) (ids : list Z) :
  map (assigned t) stations = map Some ids -> diagnostics t stations = [].
Proof.
  revert ids. unfold diagnostics.
  induction stations as [|s stations IH]; intros [|z ids] H; simpl in *;
    try discriminate; try reflexivity.
  inversion H as [[Hs Hrest]]. rewrite Hs. simpl. now apply (IH ids).
Qed.

End WithIndex.
End MatchFacts.

(** ** Reading the station list *)

Module ReaderFacts.
Import PyFacts.
Open Scope string_scope.

Section WithWorld.
Variable w : World.

Lemma read_station_list_unfold (station_path : string) (raw : list Raw.row) :
  station_csv w station_path = Ok raw ->
  read_station_list w station_path
  = (ReadCsv station_path :: ListDir (searched_dir w station_path)
       :: fst (file_loop w (fst (path_split w station_path))
                 (listdir w (searched_dir w station_path))
                 (map STATION_FILE_PATH (map rename raw)) (map rename raw)),
     snd (file_loop w (fst (path_split w station_path))
            (listdir w (searched_dir w station_path))
            (map STATION_FILE_PATH (map rename raw)) (map rename raw))).
Proof.
  intro H. unfold read_station_list, read_csv_stations, os_listdir.
  rewrite H. unfold bind, emit, lift, ret. simpl.
  now destruct (file_loop _ _ _ _ _).
Qed.

Lemma filter_no_match (name : string) (file_names : list string) :
  (forall f, In f file_names -> py_in name f = false) ->
  filter (py_in name) file_names = [].
Proof.
  induction file_names as [|f fs IH]; intro H; simpl; [reflexivity|].
  rewrite (H f (or_introl eq_refl)). apply IH.
  intros g Hg. apply H. now right.
Qed.

Lemma filter_head_in (name : string) (file_names : list string) (m : string)
    (rest : list string) :
  filter (py_in name) file_names = m :: rest -> In m file_names.
Proof.
  intro H. assert (Hm : In m (filter (py_in name) file_names))
    by (rewrite H; now left).
  now apply filter_In in Hm.
Qed.

Lemma truthy_nonempty (s : string) : s <> "" -> truthy_str s = true.
Proof.
  intro H. unfold truthy_str. destruct (String.eqb_spec s ""); [contradiction|reflexivity].
Qed.

(** With no empty file name in the directory the loop prints nothing. *)
Lemma file_loop_silent (path_root : string) (file_names names : list string)
    (station_list : list station) :
  Forall (fun f => f <> "") file_names ->
  fst (file_loop w path_root file_names names station_list) = [].
Proof.
  intro Hne. revert station_list.
  induction names as [|name rest IH]; intro station_list; simpl;
    [reflexivity|].
  destruct (filter (py_in name) file_names) as [|m ms] eqn:Ef;
    [reflexivity|].
  rewrite truthy_nonempty; [apply IH|].
  rewrite Forall_forall in Hne. apply Hne.
  now apply (filter_head_in name file_names m ms).
Qed.

(** A name contained in no file name ends the loop with [IndexError]. *)
Lemma file_loop_index_error (path_root : string)
    (file_names names : list string) (station_list : list station)
    (name : string) :
  In name names ->
  (forall f, In f file_names -> py_in name f = false) ->
  snd (file_loop w path_root file_names names station_list)
  = Raise IndexError.
Proof.
  intros Hin Hno. revert station_list.
  induction names as [|n rest IH]; intro station_list; [contradiction|].
  simpl. destruct (filter (py_in n) file_names) as [|m ms] eqn:Ef;
    [reflexivity|].
  destruct Hin as [->|Hin].
  { rewrite (filter_no_match name file_names Hno) in Ef. discriminate. }
  destruct (truthy_str m).
  - now apply IH.
  - unfold bind, emit.
    specialize (IH Hin station_list).
    destruct (file_loop w path_root file_names rest station_list) as [ev r].
    simpl in IH. now subst r.
Qed.

(** C9. In [read_station_list] a station whose name occurs in no file name
    of the searched directory ends the function with [IndexError]; and as
    no file name of a directory is empty, the match found is truthy and the
    "no file found, skipping" notice is never printed. *)
Theorem read_station_list_missing_file (station_path : string)
    (raw : list Raw.row) :
  station_csv w station_path = Ok raw ->
  Forall (fun f => f <> "") (listdir w (searched_dir w station_path)) ->
  (forall station dir,
     ~ In (Print (MsgNoFile station dir))
          (fst (read_station_list w station_path))) /\
  (forall r, In r raw ->
     (forall f, In f (listdir w (searched_dir w station_path)) ->
                py_in (split_get0 (Raw.FileName r)) f = false) ->
     snd (read_station_list w station_path) = Raise IndexError).
Proof.
  intros Hcsv Hne. rewrite (read_station_list_unfold station_path raw Hcsv).
  cbn [fst snd]. split.
  - intros station dir. rewrite file_loop_silent by exact Hne.
    intros [H|[H|[]]]; discriminate.
  - intros r Hr Hno.
    apply (file_loop_index_error _ _ _ _ (split_get0 (Raw.FileName r)));
      [|exact Hno].
    rewrite map_map. apply (in_map (fun x => STATION_FILE_PATH (rename x))) in Hr.
    exact Hr.
Qed.

End WithWorld.
End ReaderFacts.

(** ** The join *)

Module JoinFacts.
Import PyFacts MatchFacts ReaderFacts.
Open Scope string_scope.
Open Scope list_scope.

Lemma loc_assign_FID (name p : string) (station_list : list station) :
  map FID (loc_assign name p station_list) = map FID station_list.
Proof.
  unfold loc_assign. rewrite map_map. apply map_ext.
  intro s. now destruct (String.eqb (STATION_FILE_PATH s) name).
Qed.

Lemma file_loop_FID (w : World) (path_root : string)
    (file_names names : list string) (station_list stations : list station) :
  snd (file_loop w path_root file_names names station_list) = Ok stations ->
  map FID stations = map FID station_list.
Proof.
  revert station_list. induction names as [|n rest IH]; intro station_list;
    simpl.
  - intro H. now inversion H.
  - destruct (filter (py_in n) file_names) as [|m ms]; [discriminate|].
    destruct (truthy_str m).
    + intro H. rewrite (IH _ H). apply loc_assign_FID.
    + unfold bind, emit.
      destruct (file_loop w path_root file_names rest station_list)
        as [ev r] eqn:E.
      simpl. intro H. apply IH. now rewrite E.
Qed.

Lemma read_station_list_FID (w : World) (station_path : string)
    (raw : list Raw.row) (stations : list station) :
  station_csv w station_path = Ok raw ->
  snd (read_station_list w station_path) = Ok stations ->
  map FID stations = map Raw.FID raw.
Proof.
  intros Hcsv H. rewrite (read_station_list_unfold w station_path raw Hcsv) in H.
  cbn [snd] in H. rewrite (file_loop_FID _ _ _ _ _ _ H).
  rewrite map_map. reflexivity.
Qed.

Lemma to_csv_path (w : World) (out_path : option string) (df : Csv) :
  (if negb (truthy out_path)
   then to_csv w "merged_input.csv" df
   else to_csv w (match out_path with Some p => p | None => "" end) df)
  = to_csv w (default_to "merged_input.csv" out_path) df.
Proof.
  unfold default_to. destruct out_path as [p|]; simpl; [|reflexivity].
  now destruct (truthy_str p).
Qed.

(** The index is built over the centroids in the order of the metadata
    rows: the point at a position is the centroid of the row there. *)
Lemma centroids_nth (gridmet_meta : list grid_cell)
    (pts : list (float * float)) (i : nat) (g : grid_cell) :
  centroids gridmet_meta = Ok pts ->
  nth_error gridmet_meta i = Some g ->
  exists pt,
    Centroid.gridMET_centroid (LAT g) (LON g) = Ok pt /\
    nth_error pts i = Some pt.
Proof.
  revert pts i. induction gridmet_meta as [|g' rest IH]; intros pts i Hc Hi.
  - destruct i; discriminate.
  - simpl in Hc. unfold centroid_of in Hc.
    destruct (Centroid.gridMET_centroid (LAT g') (LON g')) as [pt|e] eqn:Ept;
      [|discriminate].
    destruct (centroids rest) as [pts'|e] eqn:Er; [|discriminate].
    inversion Hc; subst pts. destruct i as [|i].
    + inversion Hi; subst g'. now exists pt.
    + simpl in Hi. simpl. now apply (IH pts').
Qed.

Lemma read_csv_gridmet_run (w : World) (path : string) :
  read_csv_gridmet w path = ([ReadCsv path], gridmet_csv w path).
Proof.
  unfold read_csv_gridmet. rewrite bind_emit. unfold lift. reflexivity.
Qed.

Section WithIndex.
Context {index : SpatialIndex}.
Variable w : World.

(** The run from the point where both tables are read and the index is
    built. *)
Lemma join_unfold (station_list gridmet_meta_path : string)
    (out_path : option string) (ev1 : list event) (stations : list station)
    (gridmet_meta : list grid_cell) (pts : list (float * float)) (t : tree) :
  read_station_list w station_list = (ev1, Ok stations) ->
  gridmet_csv w gridmet_meta_path = Ok gridmet_meta ->
  centroids gridmet_meta = Ok pts ->
  KDTree pts = Ok t ->
  join_station_to_gridmet w station_list gridmet_meta_path out_path
  = match gridmet_id_astype_int (final_column t stations) with
    | Ok ids =>
        match write_error w (default_to "merged_input.csv" out_path) with
        | None =>
            (ev1 ++ ReadCsv gridmet_meta_path :: diagnostics t stations ++
               [ToCsv (default_to "merged_input.csv" out_path)
                  (reindex out_columns
                     (merge (combine stations ids) gridmet_meta))],
             Ok tt)
        | Some e =>
            (ev1 ++ ReadCsv gridmet_meta_path :: diagnostics t stations,
             Raise e)
        end
    | Raise e =>
        (ev1 ++ ReadCsv gridmet_meta_path :: diagnostics t stations,
         Raise e)
    end.
Proof.
  intros Hs Hm Hc Ht. unfold join_station_to_gridmet.
  rewrite Hs, bind_pair. cbv beta.
  rewrite read_csv_gridmet_run, Hm, bind_pair. cbv beta.
  rewrite Hc, bind_lift_ok, Ht, bind_lift_ok.
  rewrite match_loop_run, bind_pair. cbv beta.
  unfold final_column.
  destruct (gridmet_id_astype_int _) as [ids|e].
  - rewrite bind_lift_ok, to_csv_path. unfold to_csv.
    destruct (write_error w (default_to "merged_input.csv" out_path)).
    + cbn [fst snd raise app]. now rewrite app_nil_r.
    + cbn [fst snd emit app]. reflexivity.
  - rewrite bind_lift_raise. cbn [fst snd app]. now rewrite app_nil_r.
Qed.

(** What a run that ends normally went through. *)
Lemma join_ok_inv (station_list gridmet_meta_path : string)
    (out_path : option string) (ev : list event) :
  join_station_to_gridmet w station_list gridmet_meta_path out_path
  = (ev, Ok tt) ->
  exists ev1 stations gridmet_meta pts t ids,
    read_station_list w station_list = (ev1, Ok stations) /\
    gridmet_csv w gridmet_meta_path = Ok gridmet_meta /\
    centroids gridmet_meta = Ok pts /\
    KDTree pts = Ok t /\
    map (assigned t) stations = map Some ids /\
    stations <> [] /\
    ev = ev1 ++ [ReadCsv gridmet_meta_path;
                 ToCsv (default_to "merged_input.csv" out_path)
                   (reindex out_columns
                      (merge (combine stations ids) gridmet_meta))].
Proof.
  intro H.
  destruct (read_station_list w station_list) as [ev1 [stations|e]] eqn:Es;
    [|unfold join_station_to_gridmet in H; rewrite Es in H; discriminate].
  destruct (gridmet_csv w gridmet_meta_path) as [gridmet_meta|e] eqn:Em;
    [|unfold join_station_to_gridmet in H;
      rewrite Es, bind_pair, read_csv_gridmet_run, Em in H; discriminate].
  destruct (centroids gridmet_meta) as [pts|e] eqn:Ec;
    [|unfold join_station_to_gridmet in H;
      rewrite Es, bind_pair, read_csv_gridmet_run, Em, bind_pair in H;
      cbv beta in H; rewrite Ec in H; discriminate].
  destruct (KDTree pts) as [t|e] eqn:Et;
    [|unfold join_station_to_gridmet in H;
      rewrite Es, bind_pair, read_csv_gridmet_run, Em, bind_pair in H;
      cbv beta in H; rewrite Ec, bind_lift_ok, Et in H; discriminate].
  rewrite (join_unfold _ _ _ _ _ _ _ _ Es Em Ec Et) in H.
  destruct (gridmet_id_astype_int (final_column t stations)) as [ids|e] eqn:Ei;
    [|discriminate].
  destruct (write_error w (default_to "merged_input.csv" out_path));
    [discriminate|].
  destruct (gridmet_id_inv t stations ids Ei) as [Hids Hne].
  exists ev1, stations, gridmet_meta, pts, t, ids.
  repeat split; try assumption.
  rewrite (diagnostics_nil t stations ids Hids) in H.
  now inversion H.
Qed.

(** A run that ends normally could open its output path. *)
Lemma join_ok_writable (station_list gridmet_meta_path : string)
    (out_path : option string) (ev : list event) :
  join_station_to_gridmet w station_list gridmet_meta_path out_path
  = (ev, Ok tt) ->
  write_error w (default_to "merged_input.csv" out_path) = None.
Proof.
  intro H.
  destruct (read_station_list w station_list) as [ev1 [stations|e]] eqn:Es;
    [|unfold join_station_to_gridmet in H; rewrite Es in H; discriminate].
  destruct (gridmet_csv w gridmet_meta_path) as [gridmet_meta|e] eqn:Em;
    [|unfold join_station_to_gridmet in H;
      rewrite Es, bind_pair, read_csv_gridmet_run, Em in H; discriminate].
  destruct (centroids gridmet_meta) as [pts|e] eqn:Ec;
    [|unfold join_station_to_gridmet in H;
      rewrite Es, bind_pair, read_csv_gridmet_run, Em, bind_pair in H;
      cbv beta in H; rewrite Ec in H; discriminate].
  destruct (KDTree pts) as [t|e] eqn:Et;
    [|unfold join_station_to_gridmet in H;
      rewrite Es, bind_pair, read_csv_gridmet_run, Em, bind_pair in H;
      cbv beta in H; rewrite Ec, bind_lift_ok, Et in H; discriminate].
  rewrite (join_unfold _ _ _ _ _ _ _ _ Es Em Ec Et) in H.
  destruct (gridmet_id_astype_int (final_column t stations)) as [ids|e];
    [|discriminate].
  now destruct (write_error w (default_to "merged_input.csv" out_path)).
Qed.

End WithIndex.
End JoinFacts.

(** ** The merge *)

Module MergeFacts.
Import MatchFacts.
Open Scope string_scope.
Open Scope list_scope.

Lemma reindex_body (out_df : list merged) :
  body (reindex out_columns out_df) = map out_row out_df.
Proof.
  unfold reindex. cbn [body]. apply map_ext.
  intros [[s id] g]. reflexivity.
Qed.

Lemma in_merge (stations : list (station * Z)) (gridmet_meta : list grid_cell)
    (s : station) (id : Z) (g : grid_cell) :
  In (s, id, g) (merge stations gridmet_meta) <->
  In (s, id) stations /\ In g gridmet_meta /\ GRIDMET_ID g = id.
Proof.
  unfold merge. rewrite in_flat_map. split.
  - intros [[s' id'] [Hl Hm]]. cbn [fst snd] in Hm.
    apply in_map_iff in Hm. destruct Hm as [g' [Heq Hg]].
    inversion Heq; subst. apply filter_In in Hg. destruct Hg as [Hg Hk].
    apply Z.eqb_eq in Hk. now repeat split.
  - intros [Hl [Hg Hk]]. exists (s, id). split; [exact Hl|].
    cbn [fst snd]. apply in_map_iff. exists g. split; [reflexivity|].
    apply filter_In. split; [exact Hg | now apply Z.eqb_eq].
Qed.

Lemma length_merge (stations : list (station * Z))
    (gridmet_meta : list grid_cell) :
  List.length (merge stations gridmet_meta)
  = list_sum (map (fun l => rows_for gridmet_meta (snd l)) stations).
Proof.
  unfold merge. rewrite length_flat_map. f_equal. apply map_ext.
  intro l. now rewrite length_map.
Qed.

(** A key that is unique in the metadata selects at most one row. *)
Lemma rows_for_unique (gridmet_meta : list grid_cell) (id : Z) :
  NoDup (map GRIDMET_ID gridmet_meta) -> (rows_for gridmet_meta id <= 1)%nat.
Proof.
  unfold rows_for. induction gridmet_meta as [|g rest IH]; simpl; intro H;
    [lia|].
  inversion H as [|x l Hnotin Hrest]; subst.
  destruct (Z.eqb_spec (GRIDMET_ID g) id) as [E|E]; [|now apply IH].
  simpl. assert (Hnil : filter (fun g0 => Z.eqb (GRIDMET_ID g0) id) rest = []).
  { destruct (filter _ rest) as [|g' r] eqn:Ef; [reflexivity|].
    exfalso. apply Hnotin.
    assert (Hin : In g' (filter (fun g0 => Z.eqb (GRIDMET_ID g0) id) rest))
      by (rewrite Ef; now left).
    apply filter_In in Hin. destruct Hin as [Hin Hk].
    apply Z.eqb_eq in Hk. rewrite E, <- Hk. now apply in_map. }
  rewrite Hnil. simpl. lia.
Qed.

(** A positional metadata table holds each position below its length
    once, and nothing else. *)
Lemma rows_for_seq (gridmet_meta : list grid_cell)
    (start : nat) (ind : nat) :
  map GRIDMET_ID gridmet_meta
  = map Z.of_nat (seq start (List.length gridmet_meta)) ->
  rows_for gridmet_meta (Z.of_nat ind)
  = if (start <=? ind)%nat && (ind <? start + List.length gridmet_meta)%nat
    then 1%nat else 0%nat.
Proof.
  unfold rows_for. revert start.
  induction gridmet_meta as [|g rest IH]; intros start H.
  - simpl. rewrite Nat.add_0_r.
    destruct (Nat.leb_spec start ind), (Nat.ltb_spec ind start); simpl;
      try reflexivity; lia.
  - simpl in H. inversion H as [[Hg Hrest]].
    simpl filter. rewrite Hg.
    specialize (IH (S start) Hrest).
    destruct (Z.eqb_spec (Z.of_nat start) (Z.of_nat ind)) as [E|E].
    + apply Nat2Z.inj in E. subst ind. simpl List.length. rewrite IH.
      replace (S start <=? start)%nat with false
        by (symmetry; apply Nat.leb_gt; lia).
      rewrite Nat.leb_refl. simpl andb.
      replace (start <? start + S (List.length rest))%nat with true
        by (symmetry; apply Nat.ltb_lt; lia).
      reflexivity.
    + rewrite IH. simpl List.length.
      assert (Hne : start <> ind) by (intro; apply E; now subst).
      destruct (Nat.leb_spec (S start) ind), (Nat.leb_spec start ind),
        (Nat.ltb_spec ind (S start + List.length rest)),
        (Nat.ltb_spec ind (start + S (List.length rest)));
        simpl; try reflexivity; lia.
Qed.

Lemma rows_for_positional (gridmet_meta : list grid_cell) (ind : nat) :
  positional gridmet_meta ->
  rows_for gridmet_meta (Z.of_nat ind)
  = if (ind <? List.length gridmet_meta)%nat then 1%nat else 0%nat.
Proof.
  intro H. rewrite (rows_for_seq gridmet_meta 0 ind H).
  reflexivity.
Qed.

Section WithIndex.
Context {index : SpatialIndex}.

(** The rows of [stations] paired with the column the loop filled. *)
Lemma in_combine_assigned (t : tree) (stations : list station)
    (ids : list Z) (s : station) (id : Z) :
  map (assigned t) stations = map Some ids ->
  In (s, id) (combine stations ids) ->
  In s stations /\ assigned t s = Some id.
Proof.
  revert ids. induction stations as [|s' rest IH]; intros [|z ids] H Hin;
    simpl in *; try contradiction; try discriminate.
  inversion H as [[Hs Hrest]].
  destruct Hin as [Heq|Hin].
  - inversion Heq; subst. split; [now left | exact Hs].
  - destruct (IH ids Hrest Hin) as [Hin' Ha]. split; [now right | exact Ha].
Qed.

Lemma assigned_some_inv (t : tree) (s : station) (id : Z) :
  assigned t s = Some id ->
  exists ind, query t (STATION_LAT s, STATION_LON s) = Ok ind
              /\ id = Z.of_nat ind.
Proof.
  unfold assigned.
  destruct (query t (STATION_LAT s, STATION_LON s)) as [ind|e];
    [|discriminate].
  intro H. inversion H. now exists ind.
Qed.

Lemma map_fst_combine (t : tree) (stations : list station) (ids : list Z) :
  map (assigned t) stations = map Some ids ->
  map fst (combine stations ids) = stations.
Proof.
  revert ids. induction stations as [|s rest IH]; intros [|z ids] H;
    simpl in *; try discriminate; try reflexivity.
  inversion H. now rewrite (IH ids).
Qed.

Lemma hits_combine (t : tree) (gridmet_meta : list grid_cell)
    (stations : list station) (ids : list Z) :
  map (assigned t) stations = map Some ids ->
  map (fun l => rows_for gridmet_meta (snd l)) (combine stations ids)
  = map (hits t gridmet_meta) stations.
Proof.
  revert ids. induction stations as [|s rest IH]; intros [|z ids] H;
    simpl in *; try discriminate; try reflexivity.
  inversion H as [[Hs Hrest]]. unfold hits at 1. rewrite Hs.
  now rewrite (IH ids).
Qed.

End WithIndex.
End MergeFacts.

(** ** Properties of a run *)

Module RunFacts.
Import PyFacts MatchFacts ReaderFacts JoinFacts MergeFacts.
Open Scope string_scope.
Open Scope list_scope.

Lemma file_loop_prints (w : World) (path_root : string)
    (file_names names : list string) (station_list : list station)
    (e : event) :
  In e (fst (file_loop w path_root file_names names station_list)) ->
  exists station dir, e = Print (MsgNoFile station dir).
Proof.
  revert station_list. induction names as [|n rest IH]; intro station_list;
    cbn [file_loop]; [contradiction|].
  destruct (filter (py_in n) file_names) as [|m ms]; [contradiction|].
  destruct (truthy_str m); [apply IH|].
  rewrite bind_emit. cbn [fst]. intros [H|H]; [|now apply (IH station_list)].
  now exists n, (abspath w path_root).
Qed.

Lemma read_station_list_saves_nothing (w : World) (station_path : string)
    (path : string) (table : Csv) :
  ~ In (ToCsv path table) (fst (read_station_list w station_path)).
Proof.
  destruct (station_csv w station_path) as [raw|e] eqn:E.
  - rewrite (read_station_list_unfold w station_path raw E). cbn [fst].
    intros [H|[H|H]]; try discriminate.
    destruct (file_loop_prints _ _ _ _ _ _ H) as [s [d Hs]]. discriminate.
  - unfold read_station_list, read_csv_stations.
    rewrite bind_emit, E. cbn. intros [H|[]]. discriminate.
Qed.

Lemma column_FID (out_df : list merged) :
  column "FID" (reindex out_columns out_df)
  = map (fun m => Int (station_fid m)) out_df.
Proof.
  unfold column.
  change (position "FID" (header (reindex out_columns out_df)))
    with (Some 4%nat).
  cbv iota. rewrite reindex_body, map_map.
  apply map_ext. intros [[s id] g]. reflexivity.
Qed.

Lemma merge_cons (l : station * Z) (stations : list (station * Z))
    (gridmet_meta : list grid_cell) :
  merge (l :: stations) gridmet_meta
  = map (fun g => (fst l, snd l, g))
      (filter (fun g => Z.eqb (GRIDMET_ID g) (snd l)) gridmet_meta)
    ++ merge stations gridmet_meta.
Proof. reflexivity. Qed.

Lemma merge_fid_in (stations : list (station * Z))
    (gridmet_meta : list grid_cell) (fid : Z) :
  In fid (map station_fid (merge stations gridmet_meta)) ->
  In fid (map (fun l => FID (fst l)) stations).
Proof.
  intro H. apply in_map_iff in H. destruct H as [[[s id] g] [Hf Hin]].
  apply in_merge in Hin. destruct Hin as [Hl _].
  apply in_map_iff. now exists (s, id).
Qed.

Lemma merge_fid_NoDup (stations : list (station * Z))
    (gridmet_meta : list grid_cell) :
  NoDup (map (fun l => FID (fst l)) stations) ->
  NoDup (map GRIDMET_ID gridmet_meta) ->
  NoDup (map station_fid (merge stations gridmet_meta)).
Proof.
  intros Hs Hm. induction stations as [|l rest IH]; [constructor|].
  simpl in Hs. inversion Hs as [|x xs Hnotin Hrest]; subst.
  rewrite merge_cons, map_app, map_map. cbn [station_fid fst].
  pose proof (rows_for_unique gridmet_meta (snd l) Hm) as Hle.
  unfold rows_for in Hle.
  set (found := filter (fun g => Z.eqb (GRIDMET_ID g) (snd l)) gridmet_meta)
    in *.
  clearbody found.
  apply NoDup_app.
  - destruct found as [|g [|g' r]]; simpl in *;
      [constructor | | lia].
    constructor; [intros [] | constructor].
  - now apply IH.
  - intros fid Hin Hin'. apply Hnotin.
    apply in_map_iff in Hin. destruct Hin as [g [Hfid _]]. subst fid.
    now apply (merge_fid_in rest gridmet_meta).
Qed.

Lemma list_sum_le_length {A : Type} (f : A -> nat) (l : list A) :
  (forall x, f x <= 1)%nat -> (list_sum (map f l) <= List.length l)%nat.
Proof.
  intro H. induction l as [|x l IH]; simpl; [lia|].
  specialize (H x). lia.
Qed.

Lemma length_merge_le (stations : list (station * Z))
    (gridmet_meta : list grid_cell) :
  NoDup (map GRIDMET_ID gridmet_meta) ->
  (List.length (merge stations gridmet_meta) <= List.length stations)%nat.
Proof.
  intro Hm. rewrite length_merge. apply list_sum_le_length.
  intro l. now apply rows_for_unique.
Qed.

Lemma NoDup_map_injective {A B : Type} (f : A -> B) (l : list A) (x y : A) :
  NoDup (map f l) -> In x l -> In y l -> f x = f y -> x = y.
Proof.
  induction l as [|a l IH]; simpl; intros Hnd Hx Hy Hf; [contradiction|].
  inversion Hnd as [|b bs Hnotin Hrest]; subst.
  destruct Hx as [->|Hx], Hy as [->|Hy]; try reflexivity.
  - exfalso. apply Hnotin. rewrite Hf. now apply in_map.
  - exfalso. apply Hnotin. rewrite <- Hf. now apply in_map.
  - now apply IH.
Qed.

Lemma list_sum_ones {A : Type} (f : A -> nat) (l : list A) :
  (forall x, In x l -> f x = 1%nat) -> list_sum (map f l) = List.length l.
Proof.
  intro H. induction l as [|x l IH]; simpl; [reflexivity|].
  rewrite (H x (or_introl eq_refl)), IH; [reflexivity|].
  intros y Hy. apply H. now right.
Qed.

Lemma file_loop_ext (w1 w2 : World) (path_root : string)
    (files1 files2 names : list string) (station_list : list station) :
  (forall name, In name names ->
     filter (py_in name) files1 = filter (py_in name) files2) ->
  (forall p, abspath w1 p = abspath w2 p) ->
  (forall a b, path_join w1 a b = path_join w2 a b) ->
  file_loop w1 path_root files1 names station_list
  = file_loop w2 path_root files2 names station_list.
Proof.
  intros Hf Ha Hj. revert station_list.
  induction names as [|n rest IH]; intro station_list; [reflexivity|].
  cbn [file_loop]. rewrite <- (Hf n (or_introl eq_refl)).
  assert (IH' : forall sl,
             file_loop w1 path_root files1 rest sl
             = file_loop w2 path_root files2 rest sl).
  { apply IH. intros name Hn. apply Hf. now right. }
  destruct (filter (py_in n) files1) as [|m ms]; [reflexivity|].
  rewrite Ha, Hj, IH', (Ha path_root). now rewrite IH'.
Qed.

Lemma filter_py_in_without (name saved_name : string) (l : list string) :
  py_in name saved_name = false ->
  filter (py_in name)
    (filter (fun f => negb (String.eqb f saved_name)) l)
  = filter (py_in name) l.
Proof.
  intro Hout. induction l as [|f l IH]; [reflexivity|].
  cbn [filter]. destruct (String.eqb_spec f saved_name) as [->|Hf];
    cbn [negb].
  - now rewrite Hout.
  - cbn [filter]. now rewrite IH.
Qed.

Lemma searched_dir_ext (w1 w2 : World) (station_list : string) :
  path_split w1 station_list = path_split w2 station_list ->
  getcwd w1 = getcwd w2 ->
  searched_dir w1 station_list = searched_dir w2 station_list.
Proof. intros Hsplit Hcwd. unfold searched_dir. now rewrite Hsplit, Hcwd. Qed.

(** The reader does not see the saved file when its name contains no
    station name. *)
Lemma read_station_list_rerun (w1 w2 : World)
    (station_list gridmet_meta_path saved_name : string) :
  after_run w1 w2 station_list gridmet_meta_path saved_name ->
  (forall raw r,
     station_csv w1 station_list = Ok raw -> In r raw ->
     py_in (split_get0 (Raw.FileName r)) saved_name = false) ->
  read_station_list w1 station_list = read_station_list w2 station_list.
Proof.
  intros (Hs & _ & Hsplit & Hcwd & Hfiles & Ha & Hj & _) Hnames.
  pose proof (searched_dir_ext w1 w2 station_list Hsplit Hcwd) as Hdir.
  destruct (station_csv w1 station_list) as [raw|e] eqn:E.
  - rewrite (read_station_list_unfold w1 station_list raw E).
    rewrite (read_station_list_unfold w2 station_list raw)
      by now rewrite <- Hs.
    rewrite <- Hsplit.
    rewrite (file_loop_ext w1 w2 _
               (listdir w1 (searched_dir w1 station_list))
               (listdir w2 (searched_dir w2 station_list)) _ _);
      [| |exact Ha|exact Hj].
    + now rewrite Hdir.
    + intros name Hn. rewrite map_map in Hn. apply in_map_iff in Hn.
      destruct Hn as [r [Hr Hin]]. subst name.
      pose proof (Hnames raw r eq_refl Hin) as Hout. cbn [rename
        STATION_FILE_PATH].
      rewrite <- (filter_py_in_without _ saved_name
                    (listdir w1 (searched_dir w1 station_list)) Hout).
      rewrite <- (filter_py_in_without _ saved_name
                    (listdir w2 (searched_dir w2 station_list)) Hout).
      now rewrite Hfiles.
  - unfold read_station_list, read_csv_stations.
    rewrite !bind_emit, <- Hs, E. reflexivity.
Qed.

Section Determinism.
Context {index : SpatialIndex}.

(** C8, amended. A second run of the join on the same inputs, in the
    directory as the first run left it, performs the same events and saves
    the same table, provided the name of the saved file contains no
    station name of the table. *)
Theorem rerun_saves_same_table (w1 w2 : World)
    (station_list gridmet_meta_path : string) (out_path : option string)
    (saved_name : string) :
  after_run w1 w2 station_list gridmet_meta_path saved_name ->
  (forall raw r,
     station_csv w1 station_list = Ok raw -> In r raw ->
     py_in (split_get0 (Raw.FileName r)) saved_name = false) ->
  join_station_to_gridmet w1 station_list gridmet_meta_path out_path
  = join_station_to_gridmet w2 station_list gridmet_meta_path out_path.
Proof.
  intros H Hnames. unfold join_station_to_gridmet.
  rewrite (read_station_list_rerun w1 w2 _ _ _ H Hnames).
  destruct H as (_ & Hm & _ & _ & _ & _ & _ & Hw).
  apply bind_ext. intro stations.
  rewrite !read_csv_gridmet_run, Hm.
  repeat (apply bind_ext; intro).
  unfold to_csv. now rewrite !Hw.
Qed.

End Determinism.

Section WithIndex.
Context {index : SpatialIndex}.
Variable w : World.

(** The one table a normal run saves. *)
Lemma saved_table (station_list gridmet_meta_path : string)
    (out_path : option string) (ev ev1 : list event)
    (stations : list station) (gridmet_meta : list grid_cell)
    (ids : list Z) (path : string) (table : Csv) :
  read_station_list w station_list = (ev1, Ok stations) ->
  ev = ev1 ++ [ReadCsv gridmet_meta_path;
               ToCsv (default_to "merged_input.csv" out_path)
                 (reindex out_columns
                    (merge (combine stations ids) gridmet_meta))] ->
  In (ToCsv path table) ev ->
  table = reindex out_columns (merge (combine stations ids) gridmet_meta).
Proof.
  intros Hs -> Hin. apply in_app_or in Hin. destruct Hin as [Hin|Hin].
  - exfalso. apply (read_station_list_saves_nothing w station_list path table).
    now rewrite Hs.
  - destruct Hin as [H|[H|[]]]; [discriminate|]. now inversion H.
Qed.

(** C1. When the query of a station raises, its diagnostic is printed,
    but the run then ends with an exception raised by the conversion of
    the identifier column and no table is saved: the batch is aborted. *)
Theorem failed_query_aborts_batch (station_list gridmet_meta_path : string)
    (out_path : option string) (ev1 : list event) (stations : list station)
    (gridmet_meta : list grid_cell) (pts : list (float * float)) (t : tree)
    (s : station) (e : exn) :
  read_station_list w station_list = (ev1, Ok stations) ->
  gridmet_csv w gridmet_meta_path = Ok gridmet_meta ->
  centroids gridmet_meta = Ok pts ->
  KDTree pts = Ok t ->
  In s stations ->
  query t (STATION_LAT s, STATION_LON s) = Raise e ->
  exists ev err,
    join_station_to_gridmet w station_list gridmet_meta_path out_path
    = (ev, Raise err) /\
    (err = ValueError \/ err = AttributeError) /\
    In (Print (MsgNoMatch (FID s))) ev /\
    (forall path table, ~ In (ToCsv path table) ev).
Proof.
  intros Hs Hm Hc Ht Hin Hq.
  pose proof (assigned_raise t s e Hq) as Ha.
  destruct (gridmet_id_failed t stations s Hin Ha) as [err [Herr Hkind]].
  exists (ev1 ++ ReadCsv gridmet_meta_path :: diagnostics t stations), err.
  rewrite (join_unfold w _ _ out_path _ _ _ _ _ Hs Hm Hc Ht).
  unfold final_column. rewrite Herr.
  split; [reflexivity|]. split; [exact Hkind|]. split.
  - apply in_or_app. right. right. now apply diagnostics_in.
  - intros path table H. apply in_app_or in H. destruct H as [H|[H|H]].
    + apply (read_station_list_saves_nothing w station_list path table).
      now rewrite Hs.
    + discriminate.
    + unfold diagnostics in H. apply in_map_iff in H.
      destruct H as [x [Hx _]]. discriminate.
Qed.

(** C2. Every row of the saved table carries the latitude, longitude and
    elevation of a metadata row whose [GRIDMET_ID] is the index the query
    returned for the station of that row: the index is the join key. *)
Theorem joined_attributes_from_metadata
    (station_list gridmet_meta_path : string) (out_path : option string)
    (ev : list event) :
  join_station_to_gridmet w station_list gridmet_meta_path out_path
  = (ev, Ok tt) ->
  exists stations gridmet_meta pts t,
    snd (read_station_list w station_list) = Ok stations /\
    gridmet_csv w gridmet_meta_path = Ok gridmet_meta /\
    centroids gridmet_meta = Ok pts /\
    KDTree pts = Ok t /\
    forall path table row,
      In (ToCsv path table) ev -> In row (body table) ->
      exists s ind g,
        In s stations /\
        query t (STATION_LAT s, STATION_LON s) = Ok ind /\
        In g gridmet_meta /\
        GRIDMET_ID g = Z.of_nat ind /\
        row = [ Int (Z.of_nat ind); LAT g; LON g; ELEV_M g;
                Int (FID s); STATION_LAT s; STATION_LON s;
                STATION_ELEV_M s; Str (STATION_FILE_PATH s) ].
Proof.
  intro H. destruct (join_ok_inv w _ _ _ _ H)
    as (ev1 & stations & gridmet_meta & pts & t & ids
        & Hs & Hm & Hc & Ht & Hids & Hne & Hev).
  exists stations, gridmet_meta, pts, t.
  rewrite Hs. repeat split; try assumption.
  intros path table row Hsave Hrow.
  rewrite (saved_table _ _ _ _ _ _ _ _ _ _ Hs Hev Hsave) in Hrow.
  rewrite reindex_body in Hrow. apply in_map_iff in Hrow.
  destruct Hrow as [[[s id] g] [Hrow Hin]].
  apply in_merge in Hin. destruct Hin as [Hl [Hg Hk]].
  destruct (in_combine_assigned t stations ids s id Hids Hl) as [Hstat Ha].
  destruct (assigned_some_inv t s id Ha) as [ind [Hq Hid]].
  exists s, ind, g. rewrite Hid in Hk, Hrow.
  split; [exact Hstat|]. split; [exact Hq|]. split; [exact Hg|].
  split; [exact Hk|]. symmetry. exact Hrow.
Qed.

(** C7, amended. With station identifiers and grid identifiers that are
    keys of their tables, no station identifier occurs twice in the saved
    table: a station has at most one row, hence one grid identifier. *)
Theorem station_appears_at_most_once
    (station_list gridmet_meta_path : string) (out_path : option string)
    (ev : list event) (raw : list Raw.row) (gridmet_meta : list grid_cell) :
  join_station_to_gridmet w station_list gridmet_meta_path out_path
  = (ev, Ok tt) ->
  station_csv w station_list = Ok raw ->
  gridmet_csv w gridmet_meta_path = Ok gridmet_meta ->
  NoDup (map Raw.FID raw) ->
  NoDup (map GRIDMET_ID gridmet_meta) ->
  forall path table,
    In (ToCsv path table) ev ->
    NoDup (column "FID" table) /\
    (List.length (body table) <= List.length raw)%nat /\
    (forall row row',
       In row (body table) -> In row' (body table) ->
       nth 4 row NaN = nth 4 row' NaN -> row = row').
Proof.
  intros H Hraw Hmeta Hfid Hkey path table Hsave.
  destruct (join_ok_inv w _ _ _ _ H)
    as (ev1 & stations & gridmet_meta' & pts & t & ids
        & Hs & Hm & Hc & Ht & Hids & Hne & Hev).
  rewrite Hmeta in Hm. inversion Hm; subst gridmet_meta'.
  rewrite (saved_table _ _ _ _ _ _ _ _ _ _ Hs Hev Hsave).
  assert (Hfids : map (fun l => FID (fst l)) (combine stations ids)
                  = map Raw.FID raw).
  { rewrite <- (read_station_list_FID w station_list raw stations Hraw)
      by now rewrite Hs.
    rewrite <- (map_fst_combine t stations ids Hids) at 2.
    now rewrite map_map. }
  assert (Hnd : NoDup (map station_fid
                         (merge (combine stations ids) gridmet_meta))).
  { apply merge_fid_NoDup; [now rewrite Hfids | exact Hkey]. }
  assert (Hcol : NoDup (column "FID"
             (reindex out_columns
                (merge (combine stations ids) gridmet_meta)))).
  { rewrite column_FID, <- (map_map station_fid Int).
    apply NoDup_map_NoDup_ForallPairs; [|exact Hnd].
    intros x y _ _ Hxy. now inversion Hxy. }
  split; [exact Hcol|]. split.
  - rewrite reindex_body, length_map.
    rewrite <- (length_map Raw.FID raw), <- Hfids, length_map.
    now apply length_merge_le.
  - intros row row' Hrow Hrow' Heq.
    apply (NoDup_map_injective (fun r => nth 4 r NaN)
             (body (reindex out_columns
                      (merge (combine stations ids) gridmet_meta))));
      assumption.
Qed.

(** C6. [main] takes the metadata path given, or [gridmet_cell_data.csv]
    when none is; if no file exists there it raises [FileNotFoundError]
    having done nothing, and otherwise it goes on: it prints its banner
    and runs the join. *)
Theorem main_requires_metadata_file (station_file : string)
    (gridmet_meta_file out_path : option string) :
  let path := default_to "gridmet_cell_data.csv" gridmet_meta_file in
  (gridmet_meta_file = None -> path = "gridmet_cell_data.csv") /\
  (forall p, gridmet_meta_file = Some p -> p <> "" -> path = p) /\
  (path_exists w path = false ->
   main w station_file gridmet_meta_file out_path
   = ([], Raise FileNotFoundError)) /\
  (path_exists w path = true ->
   exists banner rest outcome,
     join_station_to_gridmet w station_file path
       (Some (default_to "merged_input.csv" out_path)) = (rest, outcome) /\
     main w station_file gridmet_meta_file out_path
     = (Print banner :: rest, outcome)).
Proof.
  intro path. split; [now intros ->|]. split.
  - intros p -> Hp. unfold path, default_to. cbn [truthy].
    now rewrite (truthy_nonempty p Hp).
  - unfold main. fold path. split.
    + now intros ->.
    + intros ->. cbn [negb]. rewrite bind_emit.
      destruct (join_station_to_gridmet w station_file path
                  (Some (default_to "merged_input.csv" out_path)))
        as [rest outcome].
      now eexists _, rest, outcome.
Qed.

(** C5. The table saved by a run has the nine columns in the fixed order,
    but its rows are the pairs of a station and a metadata row whose
    [GRIDMET_ID] is the index returned for the station: one row per
    matched station only when the identifiers are the row positions and
    the indices are positions of the table. *)
Theorem output_table_shape (station_list gridmet_meta_path : string)
    (out_path : option string) (ev : list event) :
  join_station_to_gridmet w station_list gridmet_meta_path out_path
  = (ev, Ok tt) ->
  exists stations gridmet_meta pts t,
    snd (read_station_list w station_list) = Ok stations /\
    gridmet_csv w gridmet_meta_path = Ok gridmet_meta /\
    centroids gridmet_meta = Ok pts /\
    KDTree pts = Ok t /\
    forall path table,
      In (ToCsv path table) ev ->
      header table = out_columns /\
      Forall (fun row => List.length row = 9%nat) (body table) /\
      List.length (body table)
      = list_sum (map (hits t gridmet_meta) stations) /\
      (positional gridmet_meta ->
       (forall s ind, In s stations ->
          query t (STATION_LAT s, STATION_LON s) = Ok ind ->
          (ind < List.length gridmet_meta)%nat) ->
       List.length (body table) = List.length stations).
Proof.
  intro H. destruct (join_ok_inv w _ _ _ _ H)
    as (ev1 & stations & gridmet_meta & pts & t & ids
        & Hs & Hm & Hc & Ht & Hids & Hne & Hev).
  exists stations, gridmet_meta, pts, t.
  rewrite Hs. split; [reflexivity|]. split; [exact Hm|].
  split; [exact Hc|]. split; [exact Ht|].
  intros path table Hsave.
  rewrite (saved_table _ _ _ _ _ _ _ _ _ _ Hs Hev Hsave), reindex_body.
  split; [reflexivity|]. split; [|split].
  - apply Forall_forall. intros row Hrow. apply in_map_iff in Hrow.
    destruct Hrow as [[[s id] g] [<- _]]. reflexivity.
  - rewrite length_map, length_merge.
    now rewrite (hits_combine t gridmet_meta stations ids Hids).
  - intros Hpos Hrange.
    rewrite length_map, length_merge.
    rewrite (hits_combine t gridmet_meta stations ids Hids).
    apply list_sum_ones. intros s Hin. unfold hits.
    destruct (assigned t s) as [id|] eqn:Ea.
    + destruct (assigned_some_inv t s id Ea) as [ind [Hq ->]].
      rewrite (rows_for_positional gridmet_meta ind Hpos).
      specialize (Hrange s ind Hin Hq).
      apply Nat.ltb_lt in Hrange. now rewrite Hrange.
    + exfalso. apply (in_map (assigned t)) in Hin.
      rewrite Hids, Ea in Hin. apply in_map_iff in Hin.
      destruct Hin as [z [Hz _]]. discriminate.
Qed.

End WithIndex.
End RunFacts.

(** ** The statements at sample inputs *)

Module Witnesses.
Import PyFacts MatchFacts ReaderFacts JoinFacts MergeFacts RunFacts Sample.
Import LinearScan.
Open Scope string_scope.
Open Scope list_scope.

Lemma read_station_list_missing_file_witness :
  snd (read_station_list
         (Sample.world Sample.rows_missing Sample.cells0 Sample.files)
         "stations.csv") = Raise IndexError.
Proof.
  refine (proj2
    (read_station_list_missing_file
       (Sample.world Sample.rows_missing Sample.cells0 Sample.files)
       "stations.csv" Sample.rows_missing eq_refl _)
    (Sample.raw 9 (Float 40.50) (Float (-119.50)) "C3_daily.xlsx") _ _).
  - repeat constructor; discriminate.
  - right. left. reflexivity.
  - intros f [<-|[<-|[<-|[]]]]; reflexivity.
Defined.

Lemma failed_query_aborts_batch_witness :
  exists ev err,
    @join_station_to_gridmet linear_scan
      (Sample.world Sample.rows_text Sample.cells0 Sample.files)
      "stations.csv" "gridmet_cell_data.csv" None = (ev, Raise err) /\
    (err = ValueError \/ err = AttributeError) /\
    In (Print (MsgNoMatch 8)) ev /\
    (forall path table, ~ In (ToCsv path table) ev).
Proof.
  eapply (@failed_query_aborts_batch linear_scan
            (Sample.world Sample.rows_text Sample.cells0 Sample.files)
            "stations.csv" "gridmet_cell_data.csv" None _ _ _ _ _
            {| FID := 8; STATION_LAT := Str "unknown";
               STATION_LON := Float (-118.98); STATION_ELEV_M := Float 1200;
               STATION_FILE_PATH := "/data/B2_daily.xlsx" |} TypeError).
  - reflexivity.
  - reflexivity.
  - reflexivity.
  - reflexivity.
  - right. left. reflexivity.
  - reflexivity.
Defined.


(** The run on a latitude column read as text: every query raises, both
    diagnostics are printed, and the run ends in [AttributeError] with
    nothing saved. *)
Example text_latitudes_abort_the_batch :
  main (index := linear_scan)
    (Sample.world Sample.rows_text Sample.cells0 Sample.files)
    "stations.csv" None None
  = ([ Print (MsgPaths "/data/stations.csv" "/data/gridmet_cell_data.csv"
                "/data/merged_input.csv");
       ReadCsv "stations.csv"; ListDir "/data";
       ReadCsv "gridmet_cell_data.csv";
       Print (MsgNoMatch 7); Print (MsgNoMatch 8) ],
     Raise AttributeError).
Proof. vm_compute. reflexivity. Qed.

(** The run on one missing latitude, with an index that rejects it: the
    first station is matched, the second gets its diagnostic, and the
    conversion of the column ends the run in [ValueError]. *)
Example one_failed_query_aborts_the_batch :
  main (index := strict_scan)
    (Sample.world Sample.rows_nan Sample.cells0 Sample.files)
    "stations.csv" None None
  = ([ Print (MsgPaths "/data/stations.csv" "/data/gridmet_cell_data.csv"
                "/data/merged_input.csv");
       ReadCsv "stations.csv"; ListDir "/data";
       ReadCsv "gridmet_cell_data.csv";
       Print (MsgNoMatch 8) ],
     Raise ValueError).
Proof. vm_compute. reflexivity. Qed.

Lemma joined_attributes_from_metadata_witness :
  let w := Sample.world Sample.rows_ok Sample.cells0 Sample.files in
  let run := @join_station_to_gridmet linear_scan w "stations.csv"
               "gridmet_cell_data.csv" None in
  snd run = Ok tt /\
  exists stations gridmet_meta pts t,
    snd (read_station_list w "stations.csv") = Ok stations /\
    gridmet_csv w "gridmet_cell_data.csv" = Ok gridmet_meta /\
    centroids gridmet_meta = Ok pts /\
    @KDTree linear_scan pts = Ok t /\
    forall path table row,
      In (ToCsv path table) (fst run) -> In row (body table) ->
      exists s ind g,
        In s stations /\
        @query linear_scan t (STATION_LAT s, STATION_LON s) = Ok ind /\
        In g gridmet_meta /\
        GRIDMET_ID g = Z.of_nat ind /\
        row = [ Int (Z.of_nat ind); LAT g; LON g; ELEV_M g;
                Int (FID s); STATION_LAT s; STATION_LON s;
                STATION_ELEV_M s; Str (STATION_FILE_PATH s) ].
Proof.
  intros w run. split; [reflexivity|].
  apply (@joined_attributes_from_metadata linear_scan w "stations.csv"
           "gridmet_cell_data.csv" None (fst run)).
  reflexivity.
Defined.

Lemma station_appears_at_most_once_witness :
  let w := Sample.world Sample.rows_ok Sample.cells0 Sample.files in
  let run := @join_station_to_gridmet linear_scan w "stations.csv"
               "gridmet_cell_data.csv" None in
  exists path table,
    In (ToCsv path table) (fst run) /\
    NoDup (column "FID" table) /\
    (List.length (body table) <= List.length Sample.rows_ok)%nat /\
    (forall row row',
       In row (body table) -> In row' (body table) ->
       nth 4 row NaN = nth 4 row' NaN -> row = row').
Proof.
  intros w run.
  assert (Hsave : exists path table, In (ToCsv path table) (fst run))
    by (eexists _, _; do 3 right; left; reflexivity).
  destruct Hsave as [path [table Hsave]].
  exists path, table. split; [exact Hsave|].
  refine (@station_appears_at_most_once linear_scan w "stations.csv"
            "gridmet_cell_data.csv" None (fst run) Sample.rows_ok
            Sample.cells0 eq_refl eq_refl eq_refl _ _ path table Hsave).
  - repeat constructor; simpl; intuition discriminate.
  - repeat constructor; simpl; intuition discriminate.
Defined.

Lemma output_table_shape_witness :
  let w := Sample.world Sample.rows_ok Sample.cells0 Sample.files in
  let run := @join_station_to_gridmet linear_scan w "stations.csv"
               "gridmet_cell_data.csv" None in
  exists stations gridmet_meta pts t,
    snd (read_station_list w "stations.csv") = Ok stations /\
    gridmet_csv w "gridmet_cell_data.csv" = Ok gridmet_meta /\
    centroids gridmet_meta = Ok pts /\
    @KDTree linear_scan pts = Ok t /\
    forall path table,
      In (ToCsv path table) (fst run) ->
      header table = out_columns /\
      Forall (fun row => List.length row = 9%nat) (body table) /\
      List.length (body table)
      = list_sum (map (@hits linear_scan t gridmet_meta) stations) /\
      (positional gridmet_meta ->
       (forall s ind, In s stations ->
          @query linear_scan t (STATION_LAT s, STATION_LON s) = Ok ind ->
          (ind < List.length gridmet_meta)%nat) ->
       List.length (body table) = List.length stations).
Proof.
  intros w run.
  apply (@output_table_shape linear_scan w "stations.csv"
           "gridmet_cell_data.csv" None (fst run)).
  reflexivity.
Defined.

(** C5 as stated fails when the identifiers are numbered from one: both
    stations are matched, one of them gets no row and the other the row
    of a cell that is not the one found for it. *)
Lemma one_row_per_matched_station_counterexample :
  ~ @one_row_per_matched_station linear_scan
      (Sample.world Sample.rows_ok Sample.cells1 Sample.files)
      "stations.csv" "gridmet_cell_data.csv" None.
Proof.
  intro H. unfold one_row_per_matched_station in H.
  edestruct H as [_ Hlen];
    [reflexivity | reflexivity | reflexivity | reflexivity | reflexivity
    | do 3 right; left; reflexivity | ].
  vm_compute in Hlen. discriminate.
Qed.

Lemma main_requires_metadata_file_witness :
  main (index := linear_scan)
    (Sample.world Sample.rows_ok Sample.cells0 Sample.files)
    "stations.csv" (Some "elsewhere.csv") None
  = ([], Raise FileNotFoundError).
Proof.
  apply (proj1 (proj2 (proj2
    (@main_requires_metadata_file linear_scan
       (Sample.world Sample.rows_ok Sample.cells0 Sample.files)
       "stations.csv" (Some "elsewhere.csv") None)))).
  reflexivity.
Defined.

Lemma rerun_saves_same_table_witness :
  @join_station_to_gridmet linear_scan
    (Sample.world Sample.rows_ok Sample.cells0 Sample.files)
    "stations.csv" "gridmet_cell_data.csv" None
  = @join_station_to_gridmet linear_scan
      (Sample.world_after Sample.rows_ok Sample.cells0 Sample.files)
      "stations.csv" "gridmet_cell_data.csv" None.
Proof.
  apply (@rerun_saves_same_table linear_scan
           (Sample.world Sample.rows_ok Sample.cells0 Sample.files)
           (Sample.world_after Sample.rows_ok Sample.cells0 Sample.files)
           "stations.csv" "gridmet_cell_data.csv" None "merged_input.csv").
  - repeat split; reflexivity.
  - intros raw r Hraw Hin. inversion Hraw; subst raw.
    destruct Hin as [<-|[<-|[]]]; reflexivity.
Defined.

(** C8 as stated fails when a station is named like the saved file: with
    a station [input] the second run finds [merged_input.csv] listed
    before the station's own file and writes it as the station's file. *)
Lemma rerun_reproduces_output_counterexample :
  ~ @rerun_reproduces_output linear_scan
      "stations.csv" "gridmet_cell_data.csv" None "merged_input.csv".
Proof.
  intro H.
  specialize (H (Sample.world EdgeSample.rows_input Sample.cells0
                   EdgeSample.files_input)
                (Sample.world_after EdgeSample.rows_input Sample.cells0
                   EdgeSample.files_input)).
  assert (Hsame : after_run
            (Sample.world EdgeSample.rows_input Sample.cells0
               EdgeSample.files_input)
            (Sample.world_after EdgeSample.rows_input Sample.cells0
               EdgeSample.files_input)
            "stations.csv" "gridmet_cell_data.csv" "merged_input.csv")
    by (repeat split; reflexivity).
  apply H in Hsame. vm_compute in Hsame. discriminate.
Qed.

(** C7 as stated fails when an identifier is repeated in the metadata:
    the station assigned to it has a row for each of its metadata rows. *)
Lemma station_rows_never_repeat_counterexample :
  ~ @station_rows_never_repeat linear_scan
      (Sample.world Sample.rows_ok EdgeSample.cells_repeated Sample.files)
      "stations.csv" "gridmet_cell_data.csv" None.
Proof.
  intro H. unfold station_rows_never_repeat in H.
  set (run := @join_station_to_gridmet linear_scan
                (Sample.world Sample.rows_ok EdgeSample.cells_repeated
                   Sample.files)
                "stations.csv" "gridmet_cell_data.csv" None) in H.
  assert (Hsave : exists path table,
            In (ToCsv path table) (fst run) /\
            column "FID" table = [Int 7; Int 8; Int 8]).
  { eexists _, _. split; [do 3 right; left; reflexivity | reflexivity]. }
  destruct Hsave as (path & table & Hin & Hcol).
  assert (Hnd : NoDup (column "FID" table)).
  { apply (H (fst run) Sample.rows_ok path table);
      [reflexivity | reflexivity | | exact Hin].
    repeat constructor; simpl; intuition discriminate. }
  rewrite Hcol in Hnd.
  inversion Hnd as [|x l H1 H2]; subst.
  inversion H2 as [|y l' H3 H4]; subst.
  apply H3. left. reflexivity.
Qed.

End Witnesses.

(** * Further properties of the code *)

(** ** The station list and its files *)

Module ReaderPaths.
Import PyFacts ReaderFacts.
Open Scope string_scope.
Open Scope list_scope.

Lemma Forall2_map_left {A B C : Type} (f : A -> B) (P : B -> C -> Prop)
    (l : list A) (l' : list C) :
  Forall2 P (map f l) l' -> Forall2 (fun x y => P (f x) y) l l'.
Proof.
  revert l'. induction l as [|x l IH]; intros l' H; inversion H; subst;
    constructor; auto.
Qed.

Lemma Forall2_impl_in {A B : Type} (P Q : A -> B -> Prop) (l : list A)
    (l' : list B) :
  (forall x y, In x l -> P x y -> Q x y) ->
  Forall2 P l l' -> Forall2 Q l l'.
Proof.
  intros Himp H. induction H as [|x y l l' Hxy Hrest IH]; constructor.
  - apply Himp; [now left | exact Hxy].
  - apply IH. intros x' y' Hin. apply Himp. now right.
Qed.

Lemma mem_app_one (n n0 : string) (l : list string) :
  mem n (l ++ [n0]) = mem n l || String.eqb n n0.
Proof. unfold mem. rewrite existsb_app. simpl. now rewrite orb_false_r. Qed.

Lemma mem_in (n : string) (l : list string) : In n l -> mem n l = true.
Proof.
  intro H. unfold mem. apply existsb_exists. exists n. split; [exact H|].
  apply String.eqb_refl.
Qed.

Lemma py_in_empty (s : string) : py_in "" s = true.
Proof. destruct s; reflexivity. Qed.

Lemma filter_py_in_empty (file_names : list string) :
  filter (py_in "") file_names = file_names.
Proof.
  induction file_names as [|f rest IH]; [reflexivity|].
  simpl filter. rewrite py_in_empty. now rewrite IH.
Qed.

Lemma filter_match_exists (name : string) (file_names : list string) :
  filter (py_in name) file_names <> [] <->
  exists f, In f file_names /\ py_in name f = true.
Proof.
  split.
  - destruct (filter (py_in name) file_names) as [|m ms] eqn:E;
      [contradiction|]. intros _.
    exists m. apply filter_In. rewrite E. now left.
  - intros [f Hf] E. apply filter_In in Hf. rewrite E in Hf. contradiction.
Qed.

Lemma loc_assign_data (name p : string) (raw : list Raw.row)
    (station_list : list station) :
  Forall2 same_station_data raw station_list ->
  Forall2 same_station_data raw (loc_assign name p station_list).
Proof.
  intro H. induction H as [|r s raw' sl Hrs Hrest IH]; simpl; constructor;
    [|exact IH].
  destruct (String.eqb (STATION_FILE_PATH s) name); exact Hrs.
Qed.

Lemma rename_data (raw : list Raw.row) :
  Forall2 same_station_data raw (map rename raw).
Proof.
  induction raw as [|r raw IH]; simpl; constructor; [|exact IH].
  now repeat split.
Qed.

Section WithWorld.
Variable w : World.

(** The loop ends normally exactly when every name it visits is contained
    in an entry of the directory. *)
Lemma file_loop_ok_iff (path_root : string) (file_names names : list string)
    (station_list : list station) :
  (exists stations,
     snd (file_loop w path_root file_names names station_list) = Ok stations)
  <->
  (forall name, In name names ->
     exists f, In f file_names /\ py_in name f = true).
Proof.
  revert station_list. induction names as [|n rest IH]; intro station_list.
  - simpl. split; [intros _ name []|]. intros _. now exists station_list.
  - cbn [file_loop].
    destruct (filter (py_in n) file_names) as [|m ms] eqn:Ef.
    + split.
      * intros [stations H]. discriminate.
      * intro H. destruct (H n (or_introl eq_refl)) as [f Hf].
        apply filter_In in Hf. rewrite Ef in Hf. contradiction.
    + assert (Hn : exists f, In f file_names /\ py_in n f = true).
      { exists m. apply filter_In. rewrite Ef. now left. }
      destruct (truthy_str m).
      * rewrite IH. split.
        -- intros H name [<-|Hin]; [exact Hn | now apply H].
        -- intros H name Hin. apply H. now right.
      * rewrite bind_emit. cbn [snd]. rewrite IH. split.
        -- intros H name [<-|Hin]; [exact Hn | now apply H].
        -- intros H name Hin. apply H. now right.
Qed.

Lemma file_loop_data (path_root : string) (file_names names : list string)
    (raw : list Raw.row) (station_list stations : list station) :
  Forall2 same_station_data raw station_list ->
  snd (file_loop w path_root file_names names station_list) = Ok stations ->
  Forall2 same_station_data raw stations.
Proof.
  revert station_list. induction names as [|n rest IH];
    intros station_list Hdata; cbn [file_loop].
  - intro H. inversion H; subst. exact Hdata.
  - destruct (filter (py_in n) file_names) as [|m ms]; [discriminate|].
    destruct (truthy_str m).
    + apply IH. now apply loc_assign_data.
    + rewrite bind_emit. cbn [snd]. now apply IH.
Qed.

Lemma loc_assign_state (path_root : string) (file_names visited : list string)
    (n0 : string) (names : list string) (station_list : list station) :
  (forall n, In n names ->
     resolved w path_root file_names n <> n0) ->
  Forall2 (path_state w path_root file_names visited) names station_list ->
  Forall2 (path_state w path_root file_names (visited ++ [n0])) names
    (loc_assign n0 (resolved w path_root file_names n0) station_list).
Proof.
  intros Hfresh H.
  induction H as [|n s names' sl Hns Hrest IH]; simpl; constructor.
  - unfold path_state in *. rewrite mem_app_one.
    destruct (mem n visited) eqn:Em; simpl orb.
    + rewrite Hns.
      destruct (String.eqb_spec (resolved w path_root file_names n) n0)
        as [E|E]; [|exact Hns].
      exfalso. apply (Hfresh n (or_introl eq_refl)). exact E.
    + rewrite Hns. destruct (String.eqb_spec n n0) as [E|E].
      * subst n0. reflexivity.
      * exact Hns.
  - apply IH. intros n' Hn'. apply Hfresh. now right.
Qed.

Lemma file_loop_state (path_root : string) (file_names : list string)
    (names : list string) (rest visited : list string)
    (station_list stations : list station) :
  Forall (fun f => f <> "") file_names ->
  (forall n n', In n names -> In n' rest ->
     resolved w path_root file_names n <> n') ->
  Forall2 (path_state w path_root file_names visited) names station_list ->
  snd (file_loop w path_root file_names rest station_list) = Ok stations ->
  Forall2 (path_state w path_root file_names (visited ++ rest)) names stations.
Proof.
  intros Hne. revert visited station_list.
  induction rest as [|n0 rest IH]; intros visited station_list Hfresh Hst;
    cbn [file_loop].
  - intro H. inversion H; subst. now rewrite app_nil_r.
  - destruct (filter (py_in n0) file_names) as [|m ms] eqn:Ef;
      [discriminate|].
    rewrite truthy_nonempty.
    2:{ rewrite Forall_forall in Hne. apply Hne.
        now apply (filter_head_in n0 file_names m ms). }
    intro H.
    replace (visited ++ n0 :: rest) with ((visited ++ [n0]) ++ rest)
      by now rewrite <- app_assoc.
    apply (IH (visited ++ [n0])
             (loc_assign n0 (abspath w (path_join w path_root m))
                station_list)).
    + intros n n' Hn Hn'. apply Hfresh; [exact Hn | now right].
    + replace (abspath w (path_join w path_root m))
        with (resolved w path_root file_names n0)
        by (unfold resolved; now rewrite Ef).
      apply loc_assign_state; [|exact Hst].
      intros n Hn. apply Hfresh; [exact Hn | now left].
    + exact H.
Qed.

Lemma rename_state (path_root : string) (file_names : list string)
    (raw : list Raw.row) :
  Forall2 (path_state w path_root file_names [])
    (map STATION_FILE_PATH (map rename raw)) (map rename raw).
Proof.
  induction raw as [|r raw IH]; simpl; constructor; [reflexivity|exact IH].
Qed.

(** The paths a normal run of the reader leaves, row by row. *)
Lemma read_station_list_state (station_path : string) (raw : list Raw.row)
    (stations : list station) :
  station_csv w station_path = Ok raw ->
  Forall (fun f => f <> "") (listdir w (searched_dir w station_path)) ->
  (forall r r', In r raw -> In r' raw ->
     resolved w (fst (path_split w station_path))
       (listdir w (searched_dir w station_path))
       (split_get0 (Raw.FileName r))
     <> split_get0 (Raw.FileName r')) ->
  snd (read_station_list w station_path) = Ok stations ->
  Forall2
    (fun r s =>
       STATION_FILE_PATH s
       = resolved w (fst (path_split w station_path))
           (listdir w (searched_dir w station_path))
           (split_get0 (Raw.FileName r)))
    raw stations.
Proof.
  intros Hcsv Hne Hfresh H.
  rewrite (read_station_list_unfold w station_path raw Hcsv) in H.
  cbn [snd] in H.
  set (root := fst (path_split w station_path)) in *.
  set (files := listdir w (searched_dir w station_path)) in *.
  set (names := map STATION_FILE_PATH (map rename raw)) in *.
  assert (Hnames : forall n, In n names ->
            exists r, In r raw /\ n = split_get0 (Raw.FileName r)).
  { intros n Hn. unfold names in Hn. rewrite map_map in Hn.
    apply in_map_iff in Hn. destruct Hn as [r [<- Hr]]. now exists r. }
  assert (Hfin : Forall2 (path_state w root files names) names stations).
  { apply (file_loop_state root files names names [] (map rename raw)
             stations Hne); [| apply rename_state | exact H].
    intros n n' Hn Hn'.
    destruct (Hnames n Hn) as [r [Hr ->]].
    destruct (Hnames n' Hn') as [r' [Hr' ->]]. now apply Hfresh. }
  assert (Hres : Forall2
            (fun n s => STATION_FILE_PATH s = resolved w root files n)
            names stations).
  { apply (Forall2_impl_in (path_state w root files names)); [|exact Hfin].
    intros n s Hn Hst. unfold path_state in Hst.
    now rewrite (mem_in n names Hn) in Hst. }
  unfold names in Hres. rewrite map_map in Hres.
  apply Forall2_map_left in Hres. exact Hres.
Qed.

(** In a normal run every row found its file. *)
Lemma read_station_list_ok_files (station_path : string)
    (raw : list Raw.row) (stations : list station) (r : Raw.row) :
  station_csv w station_path = Ok raw ->
  snd (read_station_list w station_path) = Ok stations ->
  In r raw ->
  exists f later,
    filter (py_in (split_get0 (Raw.FileName r)))
      (listdir w (searched_dir w station_path)) = f :: later.
Proof.
  intros Hcsv H Hr.
  rewrite (read_station_list_unfold w station_path raw Hcsv) in H.
  cbn [snd] in H.
  pose proof (proj1 (file_loop_ok_iff _ _ _ _) (ex_intro _ stations H)
                (split_get0 (Raw.FileName r))) as Hex.
  assert (Hin : In (split_get0 (Raw.FileName r))
                  (map STATION_FILE_PATH (map rename raw))).
  { rewrite map_map.
    apply (in_map (fun x => STATION_FILE_PATH (rename x))) in Hr. exact Hr. }
  apply Hex in Hin. apply filter_match_exists in Hin.
  destruct (filter (py_in (split_get0 (Raw.FileName r)))
              (listdir w (searched_dir w station_path))) as [|f later];
    [contradiction | eauto].
Qed.

(** X5. Once the station CSV is read, [read_station_list] returns a station
    list exactly when every row's station name (its [FileName] up to the
    first underscore) is contained in the name of some entry of the
    searched directory; one row without such an entry ends the whole call
    in an exception. *)
Theorem read_station_list_succeeds_iff (station_path : string)
    (raw : list Raw.row) :
  station_csv w station_path = Ok raw ->
  ((exists stations,
      snd (read_station_list w station_path) = Ok stations)
   <->
   (forall r, In r raw ->
      exists f, In f (listdir w (searched_dir w station_path)) /\
                py_in (split_get0 (Raw.FileName r)) f = true)).
Proof.
  intro Hcsv. rewrite (read_station_list_unfold w station_path raw Hcsv).
  cbn [snd]. rewrite file_loop_ok_iff. rewrite map_map. split.
  - intros H r Hr. apply H.
    apply (in_map (fun x => STATION_FILE_PATH (rename x))) in Hr. exact Hr.
  - intros H name Hn. apply in_map_iff in Hn. destruct Hn as [r [<- Hr]].
    now apply H.
Qed.

(** X6. The station list returned has one row per row of the CSV, in the
    same order, and each row keeps the identifier, latitude, longitude and
    elevation of its CSV row: the reader changes the file path column
    only. *)
Theorem read_station_list_keeps_data (station_path : string)
    (raw : list Raw.row) (stations : list station) :
  station_csv w station_path = Ok raw ->
  snd (read_station_list w station_path) = Ok stations ->
  List.length stations = List.length raw /\
  Forall2 same_station_data raw stations.
Proof.
  intros Hcsv H.
  rewrite (read_station_list_unfold w station_path raw Hcsv) in H.
  cbn [snd] in H.
  pose proof (file_loop_data _ _ _ raw _ _ (rename_data raw) H) as Hd.
  split; [|exact Hd]. symmetry. now apply (Forall2_length Hd).
Qed.

(** X7. When no directory entry has an empty name and no path written
    equals a station name of the table, every returned row holds the
    absolute path of the first directory entry, in listing order, whose
    name contains the row's station name: containment decides, and among
    several candidates the first listed wins. *)
Theorem station_file_is_first_match (station_path : string)
    (raw : list Raw.row) (stations : list station) :
  station_csv w station_path = Ok raw ->
  Forall (fun f => f <> "") (listdir w (searched_dir w station_path)) ->
  (forall r r' f later,
     In r raw -> In r' raw ->
     filter (py_in (split_get0 (Raw.FileName r)))
       (listdir w (searched_dir w station_path)) = f :: later ->
     abspath w (path_join w (fst (path_split w station_path)) f)
     <> split_get0 (Raw.FileName r')) ->
  snd (read_station_list w station_path) = Ok stations ->
  Forall2
    (fun r s =>
       exists f later,
         filter (py_in (split_get0 (Raw.FileName r)))
           (listdir w (searched_dir w station_path)) = f :: later /\
         STATION_FILE_PATH s
         = abspath w (path_join w (fst (path_split w station_path)) f))
    raw stations.
Proof.
  intros Hcsv Hne Hfresh H.
  pose proof (fun r => read_station_list_ok_files station_path raw stations r
                         Hcsv H) as Hfound.
  assert (Hst := read_station_list_state station_path raw stations Hcsv Hne).
  eapply Forall2_impl_in; [|apply Hst; [|exact H]].
  - intros r s Hr Hp. destruct (Hfound r Hr) as (f & later & Hf).
    exists f, later. split; [exact Hf|]. cbv beta in Hp. rewrite Hp.
    unfold resolved. now rewrite Hf.
  - intros r r' Hr Hr'. destruct (Hfound r Hr) as (f & later & Hf).
    unfold resolved. rewrite Hf. simpl hd. now apply (Hfresh r r' f later).
Qed.

(** X8. A row whose station name is empty, because its [FileName] begins
    with an underscore, matches every directory entry: when no entry has an
    empty name and no path written equals a station name of the table, it
    is given the path of the first entry listed, whatever that file is. *)
Theorem underscore_name_takes_first_entry (station_path : string)
    (raw : list Raw.row) (stations : list station) (f : string)
    (later : list string) :
  station_csv w station_path = Ok raw ->
  listdir w (searched_dir w station_path) = f :: later ->
  Forall (fun f => f <> "") (f :: later) ->
  (forall r r' f' later',
     In r raw -> In r' raw ->
     filter (py_in (split_get0 (Raw.FileName r))) (f :: later) = f' :: later' ->
     abspath w (path_join w (fst (path_split w station_path)) f')
     <> split_get0 (Raw.FileName r')) ->
  snd (read_station_list w station_path) = Ok stations ->
  Forall2
    (fun r s =>
       split_get0 (Raw.FileName r) = "" ->
       STATION_FILE_PATH s
       = abspath w (path_join w (fst (path_split w station_path)) f))
    raw stations.
Proof.
  intros Hcsv Hdir Hne Hfresh H.
  assert (Hst := read_station_list_state station_path raw stations Hcsv).
  rewrite Hdir in Hst.
  eapply Forall2_impl_in; [|apply Hst; [exact Hne| |exact H]].
  - intros r s Hr Hp Hname. cbv beta in Hp. rewrite Hp.
    unfold resolved. rewrite Hname. now rewrite filter_py_in_empty.
  - intros r r' Hr Hr'.
    destruct (read_station_list_ok_files station_path raw stations r Hcsv H Hr)
      as (f' & later' & Hf).
    rewrite Hdir in Hf. unfold resolved. rewrite Hf. simpl hd.
    now apply (Hfresh r r' f' later').
Qed.

End WithWorld.
End ReaderPaths.

(** ** Runs of the join *)

Module JoinRuns.
Import PyFacts MatchFacts ReaderFacts JoinFacts MergeFacts RunFacts.
Open Scope string_scope.
Open Scope list_scope.

Lemma int_raises (x : float) (e : exn) :
  Centroid.int x = Raise e -> e = ValueError \/ e = OverflowError.
Proof.
  unfold Centroid.int. destruct (Prim2SF x); intro H; inversion H; auto.
Qed.

Lemma as_float_raises (v : scalar) (e : exn) :
  Centroid.as_float v = Raise e -> e = TypeError.
Proof. destruct v; simpl; intro H; now inversion H. Qed.

Lemma centroid_of_raises (g : grid_cell) (e : exn) :
  centroid_of g = Raise e ->
  e = ValueError \/ e = TypeError \/ e = OverflowError.
Proof.
  unfold centroid_of, Centroid.gridMET_centroid. cbv zeta.
  destruct (Centroid.as_float (LAT g)) as [lat|e1] eqn:E1.
  2:{ intro H. inversion H; subst. right. left.
      now apply (as_float_raises (LAT g)). }
  destruct (Centroid.int _) as [i|e2] eqn:E2.
  2:{ intro H. inversion H; subst.
      destruct (int_raises _ _ E2) as [->| ->]; auto. }
  destruct (Centroid.as_float (LON g)) as [lon|e3] eqn:E3.
  2:{ intro H. inversion H; subst. right. left.
      now apply (as_float_raises (LON g)). }
  destruct (Centroid.int (abs (lon - _) / _)) as [j|e4] eqn:E4;
    [discriminate|].
  intro H. inversion H; subst.
  destruct (int_raises _ _ E4) as [->| ->]; auto.
Qed.

(** A row at which the centroid cannot be computed stops the computation
    of the centroids. *)
Lemma centroids_bad_row (gridmet_meta : list grid_cell) (g : grid_cell)
    (e : exn) :
  In g gridmet_meta -> centroid_of g = Raise e ->
  exists e', centroids gridmet_meta = Raise e'
             /\ (e' = ValueError \/ e' = TypeError \/ e' = OverflowError).
Proof.
  intros Hin Hg. induction gridmet_meta as [|g' rest IH]; [contradiction|].
  simpl. destruct (centroid_of g') as [pt|e1] eqn:E1.
  - destruct Hin as [->|Hin]; [rewrite Hg in E1; discriminate|].
    destruct (IH Hin) as [e' [He' Hk]]. rewrite He'. now exists e'.
  - exists e1. split; [reflexivity|]. now apply (centroid_of_raises g').
Qed.

(** The exception that stops the centroids is the exception of a row. *)
Lemma centroids_raise_row (gridmet_meta : list grid_cell) (e : exn) :
  centroids gridmet_meta = Raise e ->
  exists g, In g gridmet_meta /\ centroid_of g = Raise e.
Proof.
  induction gridmet_meta as [|g rest IH]; [discriminate|].
  simpl. destruct (centroid_of g) as [pt|e1] eqn:E1.
  - destruct (centroids rest) as [pts|e2]; [discriminate|].
    intro H. inversion H; subst.
    destruct (IH eq_refl) as [g' [Hin Hg']]. exists g'. split; [now right|].
    exact Hg'.
  - intro H. inversion H; subst. exists g. split; [now left | exact E1].
Qed.

(** The missing value fails in [int()], text in the subtraction. *)
Lemma nan_latitude_raises :
  Centroid.int
    (abs (nan - Centroid.gridmet_lat) / Centroid.gridmet_cs)%float
  = Raise ValueError.
Proof. reflexivity. Qed.

Lemma nan_longitude_raises :
  Centroid.int
    (abs (nan - Centroid.gridmet_lon) / Centroid.gridmet_cs)%float
  = Raise ValueError.
Proof. reflexivity. Qed.

Lemma not_number_raises (g : grid_cell) :
  (LAT g = NaN \/ (exists text, LAT g = Str text)) \/
  (LON g = NaN \/ (exists text, LON g = Str text)) ->
  exists e, centroid_of g = Raise e.
Proof.
  unfold centroid_of, Centroid.gridMET_centroid. cbv zeta.
  intros [[Hlat|[text Hlat]]|Hlon].
  - rewrite Hlat. cbn [Centroid.as_float]. rewrite nan_latitude_raises. eauto.
  - rewrite Hlat. cbn [Centroid.as_float]. eauto.
  - destruct (Centroid.as_float (LAT g)) as [lat|e1]; [|eauto].
    destruct (Centroid.int _) as [i|e2]; [|eauto].
    destruct Hlon as [Hlon|[text Hlon]]; rewrite Hlon;
      cbn [Centroid.as_float]; [rewrite nan_longitude_raises|]; eauto.
Qed.

Lemma read_station_list_empty (w : World) (station_path : string) :
  station_csv w station_path = Ok [] ->
  read_station_list w station_path
  = ([ReadCsv station_path; ListDir (searched_dir w station_path)], Ok []).
Proof.
  intro H. now rewrite (read_station_list_unfold w station_path [] H).
Qed.

Lemma positional_nth_id (gridmet_meta : list grid_cell) (start i : nat)
    (g : grid_cell) :
  map GRIDMET_ID gridmet_meta
  = map Z.of_nat (seq start (List.length gridmet_meta)) ->
  nth_error gridmet_meta i = Some g ->
  GRIDMET_ID g = Z.of_nat (start + i).
Proof.
  revert start i. induction gridmet_meta as [|g' rest IH]; intros start i H Hi.
  - destruct i; discriminate.
  - simpl in H. inversion H as [[Hg Hrest]]. destruct i as [|i].
    + inversion Hi; subst. now rewrite Nat.add_0_r.
    + simpl in Hi. rewrite (IH (S start) i Hrest Hi). f_equal. lia.
Qed.

Lemma positional_row (gridmet_meta : list grid_cell) (g : grid_cell)
    (ind : nat) :
  positional gridmet_meta -> In g gridmet_meta ->
  GRIDMET_ID g = Z.of_nat ind ->
  nth_error gridmet_meta ind = Some g.
Proof.
  intros Hpos Hin Hid. apply In_nth_error in Hin. destruct Hin as [i Hi].
  pose proof (positional_nth_id gridmet_meta 0 i g Hpos Hi) as Hgi.
  rewrite Hid in Hgi. apply Nat2Z.inj in Hgi. simpl in Hgi. now subst i.
Qed.

Lemma assigned_all (index : SpatialIndex) (t : tree)
    (stations : list station) :
  (forall s, In s stations ->
     exists ind, query t (STATION_LAT s, STATION_LON s) = Ok ind) ->
  exists ids, map (assigned t) stations = map Some ids.
Proof.
  induction stations as [|s rest IH]; intro H.
  - now exists [].
  - destruct (H s (or_introl eq_refl)) as [ind Hq].
    destruct IH as [ids Hids]; [intros s' Hs'; apply H; now right|].
    exists (Z.of_nat ind :: ids). simpl.
    now rewrite (assigned_ok t s ind Hq), Hids.
Qed.

Lemma final_column_all (index : SpatialIndex) (t : tree)
    (stations : list station) (ids : list Z) :
  stations <> [] ->
  map (assigned t) stations = map Some ids ->
  gridmet_id_astype_int (final_column t stations) = Ok ids.
Proof.
  intros Hne Hids. unfold final_column. rewrite Hids.
  destruct ids as [|z ids].
  - destruct stations; [contradiction | discriminate].
  - simpl existsb. simpl gridmet_id_astype_int.
    change (astype_int (map Some (z :: ids)) = Ok (z :: ids)).
    apply astype_int_some.
Qed.

Lemma station_eta (s s' : station) :
  FID s = FID s' -> STATION_LAT s = STATION_LAT s' ->
  STATION_LON s = STATION_LON s' -> STATION_ELEV_M s = STATION_ELEV_M s' ->
  STATION_FILE_PATH s = STATION_FILE_PATH s' -> s = s'.
Proof. destruct s, s'; simpl; intros; subst; reflexivity. Qed.

Lemma read_station_list_no_diagnostic (w : World) (station_path : string)
    (fid : Z) :
  ~ In (Print (MsgNoMatch fid)) (fst (read_station_list w station_path)).
Proof.
  destruct (station_csv w station_path) as [raw|e] eqn:E.
  - rewrite (read_station_list_unfold w station_path raw E). cbn [fst].
    intros [H|[H|H]]; try discriminate.
    destruct (file_loop_prints _ _ _ _ _ _ H) as [s [d Hs]]. discriminate.
  - unfold read_station_list, read_csv_stations.
    rewrite bind_emit, E. cbn. intros [H|[]]. discriminate.
Qed.

Section WithIndex.
Context {index : SpatialIndex}.
Variable w : World.

(** X9. Once both tables are read and the index is built, the join ends
    normally exactly when the station list is not empty, the query of
    every station returns and the output path can be opened for writing;
    a normal run performs the events of the reader,
    then reads the metadata file and saves one table at the path given or
    at [merged_input.csv], and nothing else. *)
Theorem join_succeeds_iff (station_list gridmet_meta_path : string)
    (out_path : option string) (ev1 : list event) (stations : list station)
    (gridmet_meta : list grid_cell) (pts : list (float * float)) (t : tree) :
  read_station_list w station_list = (ev1, Ok stations) ->
  gridmet_csv w gridmet_meta_path = Ok gridmet_meta ->
  centroids gridmet_meta = Ok pts ->
  KDTree pts = Ok t ->
  ((exists ev,
      join_station_to_gridmet w station_list gridmet_meta_path out_path
      = (ev, Ok tt))
   <->
   (stations <> [] /\
    (forall s, In s stations ->
       exists ind, query t (STATION_LAT s, STATION_LON s) = Ok ind) /\
    write_error w (default_to "merged_input.csv" out_path) = None)) /\
  (forall ev,
     join_station_to_gridmet w station_list gridmet_meta_path out_path
     = (ev, Ok tt) ->
     exists table,
       ev = ev1 ++ [ReadCsv gridmet_meta_path;
                    ToCsv (default_to "merged_input.csv" out_path) table]).
Proof.
  intros Hs Hm Hc Ht.
  rewrite (join_unfold w _ _ out_path _ _ _ _ _ Hs Hm Hc Ht).
  split; [split|].
  - intros [ev H].
    destruct (gridmet_id_astype_int (final_column t stations)) as [ids|e]
      eqn:Ei; [|discriminate].
    destruct (write_error w (default_to "merged_input.csv" out_path))
      eqn:Ew; [discriminate|].
    destruct (gridmet_id_inv t stations ids Ei) as [Hids Hne].
    split; [exact Hne|]. split; [|reflexivity]. intros s Hin.
    apply (in_map (assigned t)) in Hin. rewrite Hids in Hin.
    apply in_map_iff in Hin. destruct Hin as [id [Hid _]].
    symmetry in Hid. destruct (assigned_some_inv t s id Hid) as [ind [Hq _]].
    now exists ind.
  - intros (Hne & Hall & Hw).
    destruct (assigned_all index t stations Hall) as [ids Hids].
    rewrite (final_column_all index t stations ids Hne Hids), Hw. eauto.
  - intros ev H.
    destruct (gridmet_id_astype_int (final_column t stations)) as [ids|e]
      eqn:Ei; [|discriminate].
    destruct (write_error w (default_to "merged_input.csv" out_path));
      [discriminate|].
    destruct (gridmet_id_inv t stations ids Ei) as [Hids Hne].
    rewrite (diagnostics_nil t stations ids Hids) in H.
    inversion H. eauto.
Qed.

(** X17. When everything up to the save succeeds but the output path
    cannot be opened for writing, the run ends in the exception of
    [to_csv]: only after both tables were read and every station was
    matched, and with nothing saved. *)
Theorem unwritable_output_raises (station_list gridmet_meta_path : string)
    (out_path : option string) (ev1 : list event) (stations : list station)
    (gridmet_meta : list grid_cell) (pts : list (float * float)) (t : tree)
    (e : exn) :
  read_station_list w station_list = (ev1, Ok stations) ->
  gridmet_csv w gridmet_meta_path = Ok gridmet_meta ->
  centroids gridmet_meta = Ok pts ->
  KDTree pts = Ok t ->
  stations <> [] ->
  (forall s, In s stations ->
     exists ind, query t (STATION_LAT s, STATION_LON s) = Ok ind) ->
  write_error w (default_to "merged_input.csv" out_path) = Some e ->
  join_station_to_gridmet w station_list gridmet_meta_path out_path
  = (ev1 ++ [ReadCsv gridmet_meta_path], Raise e).
Proof.
  intros Hs Hm Hc Ht Hne Hall Hw.
  rewrite (join_unfold w _ _ out_path _ _ _ _ _ Hs Hm Hc Ht).
  destruct (assigned_all index t stations Hall) as [ids Hids].
  rewrite (final_column_all index t stations ids Hne Hids), Hw.
  now rewrite (diagnostics_nil t stations ids Hids).
Qed.

(** X10. A station CSV without rows, with readable metadata: the loop
    assigns nothing, the [GRIDMET_ID] column is never created, and the run
    ends in [AttributeError] after the three reads, with nothing saved. *)
Theorem empty_station_table_raises (station_list gridmet_meta_path : string)
    (out_path : option string) (gridmet_meta : list grid_cell)
    (pts : list (float * float)) (t : tree) :
  station_csv w station_list = Ok [] ->
  gridmet_csv w gridmet_meta_path = Ok gridmet_meta ->
  centroids gridmet_meta = Ok pts ->
  KDTree pts = Ok t ->
  join_station_to_gridmet w station_list gridmet_meta_path out_path
  = ([ReadCsv station_list; ListDir (searched_dir w station_list);
      ReadCsv gridmet_meta_path],
     Raise AttributeError).
Proof.
  intros Hs Hm Hc Ht.
  rewrite (join_unfold w _ _ out_path _ _ _ _ _
             (read_station_list_empty w station_list Hs) Hm Hc Ht).
  reflexivity.
Qed.

(** X11. One metadata row whose [LAT] or [LON] is missing or text stops
    the run while the centroids are computed: after the metadata file is
    read, before any station is looked up, and with nothing saved.  The
    exception is the [ValueError] of [int()] on a missing value or the
    [TypeError] of the subtraction on text; only where the centroid of
    some row overflows can it be [OverflowError] instead. *)
Theorem metadata_without_coordinate_aborts
    (station_list gridmet_meta_path : string) (out_path : option string)
    (ev1 : list event) (stations : list station)
    (gridmet_meta : list grid_cell) (g : grid_cell) :
  read_station_list w station_list = (ev1, Ok stations) ->
  gridmet_csv w gridmet_meta_path = Ok gridmet_meta ->
  In g gridmet_meta ->
  (LAT g = NaN \/ (exists text, LAT g = Str text)) \/
  (LON g = NaN \/ (exists text, LON g = Str text)) ->
  exists e,
    join_station_to_gridmet w station_list gridmet_meta_path out_path
    = (ev1 ++ [ReadCsv gridmet_meta_path], Raise e) /\
    (e = ValueError \/ e = TypeError \/ e = OverflowError) /\
    ((forall g', In g' gridmet_meta ->
        centroid_of g' <> Raise OverflowError) ->
     e = ValueError \/ e = TypeError).
Proof.
  intros Hs Hm Hin Hbad.
  destruct (not_number_raises g Hbad) as [e0 Hg].
  destruct (centroids_bad_row gridmet_meta g e0 Hin Hg) as [e [He Hk]].
  exists e. split; [|split; [exact Hk|]].
  - unfold join_station_to_gridmet.
    rewrite Hs, bind_pair. cbv beta.
    rewrite read_csv_gridmet_run, Hm, bind_pair. cbv beta.
    rewrite He, bind_lift_raise. reflexivity.
  - intro Hfinite. destruct (centroids_raise_row gridmet_meta e He)
      as [g' [Hin' Hg']].
    destruct Hk as [Hk|[Hk|Hk]]; [now left | now right |].
    subst e. exfalso. exact (Hfinite g' Hin' Hg').
Qed.

(** X12. When every metadata row is numbered by its position, each saved
    row carries the attributes of the metadata row standing at the index
    the query returned for its station, and the point the index held at
    that position is the centroid of that very row: the cell joined is the
    cell chosen. *)
Theorem positional_metadata_joins_chosen_cell
    (station_list gridmet_meta_path : string) (out_path : option string)
    (ev : list event) (gridmet_meta : list grid_cell) :
  join_station_to_gridmet w station_list gridmet_meta_path out_path
  = (ev, Ok tt) ->
  gridmet_csv w gridmet_meta_path = Ok gridmet_meta ->
  positional gridmet_meta ->
  exists stations pts t,
    snd (read_station_list w station_list) = Ok stations /\
    centroids gridmet_meta = Ok pts /\
    KDTree pts = Ok t /\
    forall path table row,
      In (ToCsv path table) ev -> In row (body table) ->
      exists s ind g pt,
        In s stations /\
        query t (STATION_LAT s, STATION_LON s) = Ok ind /\
        nth_error gridmet_meta ind = Some g /\
        Centroid.gridMET_centroid (LAT g) (LON g) = Ok pt /\
        nth_error pts ind = Some pt /\
        row = [ Int (Z.of_nat ind); LAT g; LON g; ELEV_M g;
                Int (FID s); STATION_LAT s; STATION_LON s;
                STATION_ELEV_M s; Str (STATION_FILE_PATH s) ].
Proof.
  intros H Hmeta Hpos.
  destruct (join_ok_inv w _ _ _ _ H)
    as (ev1 & stations & gridmet_meta' & pts & t & ids
        & Hs & Hm & Hc & Ht & Hids & Hne & Hev).
  rewrite Hmeta in Hm. inversion Hm; subst gridmet_meta'.
  exists stations, pts, t. rewrite Hs.
  split; [reflexivity|]. split; [exact Hc|]. split; [exact Ht|].
  intros path table row Hsave Hrow.
  rewrite (saved_table w _ _ _ _ _ _ _ _ _ _ Hs Hev Hsave) in Hrow.
  rewrite reindex_body in Hrow. apply in_map_iff in Hrow.
  destruct Hrow as [[[s id] g] [Hrow Hin]].
  apply in_merge in Hin. destruct Hin as [Hl [Hg Hk]].
  destruct (in_combine_assigned t stations ids s id Hids Hl) as [Hstat Ha].
  destruct (assigned_some_inv t s id Ha) as [ind [Hq Hid]].
  rewrite Hid in Hk, Hrow.
  pose proof (positional_row gridmet_meta g ind Hpos Hg Hk) as Hnth.
  destruct (centroids_nth gridmet_meta pts ind g Hc Hnth)
    as (pt & Hpt & Hnth').
  exists s, ind, g, pt.
  repeat (split; [assumption|]). symmetry. exact Hrow.
Qed.

(** X13. A normal run prints no diagnostic at all, and a station whose
    returned index is the [GRIDMET_ID] of no metadata row has no row in the
    saved table: it is dropped without a message. *)
Theorem unmatched_identifier_dropped_silently
    (station_list gridmet_meta_path : string) (out_path : option string)
    (ev : list event) :
  join_station_to_gridmet w station_list gridmet_meta_path out_path
  = (ev, Ok tt) ->
  exists stations gridmet_meta pts t,
    snd (read_station_list w station_list) = Ok stations /\
    gridmet_csv w gridmet_meta_path = Ok gridmet_meta /\
    centroids gridmet_meta = Ok pts /\
    KDTree pts = Ok t /\
    (forall fid, ~ In (Print (MsgNoMatch fid)) ev) /\
    forall s ind,
      In s stations ->
      query t (STATION_LAT s, STATION_LON s) = Ok ind ->
      (forall g, In g gridmet_meta -> GRIDMET_ID g <> Z.of_nat ind) ->
      forall path table row,
        In (ToCsv path table) ev -> In row (body table) ->
        forall id g, row <> out_row (s, id, g).
Proof.
  intro H. destruct (join_ok_inv w _ _ _ _ H)
    as (ev1 & stations & gridmet_meta & pts & t & ids
        & Hs & Hm & Hc & Ht & Hids & Hne & Hev).
  exists stations, gridmet_meta, pts, t. rewrite Hs.
  split; [reflexivity|]. split; [exact Hm|]. split; [exact Hc|].
  split; [exact Ht|]. split.
  - intros fid Hin. rewrite Hev in Hin. apply in_app_or in Hin.
    destruct Hin as [Hin|[Hin|[Hin|[]]]]; try discriminate.
    apply (read_station_list_no_diagnostic w station_list fid).
    now rewrite Hs.
  - intros s ind Hin Hq Hnone path table row Hsave Hrow id g Heq.
    rewrite (saved_table w _ _ _ _ _ _ _ _ _ _ Hs Hev Hsave) in Hrow.
    rewrite reindex_body in Hrow. apply in_map_iff in Hrow.
    destruct Hrow as [[[s' id'] g'] [Hrow Hmerge]].
    apply in_merge in Hmerge. destruct Hmerge as [Hl [Hg Hk]].
    destruct (in_combine_assigned t stations ids s' id' Hids Hl) as [_ Ha].
    rewrite Heq in Hrow. simpl in Hrow. inversion Hrow as
      [[Hid Hlat Hlon Helev Hfid Hslat Hslon Hselev Hpath]].
    assert (Hss : s' = s) by now apply station_eta.
    subst s'. rewrite (assigned_ok t s ind Hq) in Ha. inversion Ha.
    apply (Hnone g' Hg). congruence.
Qed.

(** X14. When no [GRIDMET_ID] is repeated in the metadata, two saved rows
    with the same grid identifier carry the same grid latitude, longitude
    and elevation. *)
Theorem grid_columns_determined_by_identifier
    (station_list gridmet_meta_path : string) (out_path : option string)
    (ev : list event) (gridmet_meta : list grid_cell) :
  join_station_to_gridmet w station_list gridmet_meta_path out_path
  = (ev, Ok tt) ->
  gridmet_csv w gridmet_meta_path = Ok gridmet_meta ->
  NoDup (map GRIDMET_ID gridmet_meta) ->
  forall path table row row',
    In (ToCsv path table) ev ->
    In row (body table) -> In row' (body table) ->
    nth 0 row NaN = nth 0 row' NaN ->
    nth 1 row NaN = nth 1 row' NaN /\
    nth 2 row NaN = nth 2 row' NaN /\
    nth 3 row NaN = nth 3 row' NaN.
Proof.
  intros H Hmeta Hkey path table row row' Hsave Hrow Hrow' Hsame.
  destruct (join_ok_inv w _ _ _ _ H)
    as (ev1 & stations & gridmet_meta' & pts & t & ids
        & Hs & Hm & Hc & Ht & Hids & Hne & Hev).
  rewrite Hmeta in Hm. inversion Hm; subst gridmet_meta'.
  rewrite (saved_table w _ _ _ _ _ _ _ _ _ _ Hs Hev Hsave) in Hrow, Hrow'.
  rewrite reindex_body in Hrow, Hrow'.
  apply in_map_iff in Hrow. destruct Hrow as [[[s id] g] [<- Hin]].
  apply in_map_iff in Hrow'. destruct Hrow' as [[[s' id'] g'] [<- Hin']].
  apply in_merge in Hin. destruct Hin as (_ & Hg & Hk).
  apply in_merge in Hin'. destruct Hin' as (_ & Hg' & Hk').
  simpl in Hsame. inversion Hsame as [Hid].
  assert (Hgg : g = g').
  { apply (NoDup_map_injective GRIDMET_ID gridmet_meta); try assumption.
    congruence. }
  subst g'. simpl. auto.
Qed.

(** X15. Once both tables are read and the index is built, the
    diagnostic for an identifier is printed exactly when the query of some
    station with that [FID] raised; no other station is ever reported. *)
Theorem diagnostics_name_the_failed_stations
    (station_list gridmet_meta_path : string) (out_path : option string)
    (ev1 : list event) (stations : list station)
    (gridmet_meta : list grid_cell) (pts : list (float * float)) (t : tree) :
  read_station_list w station_list = (ev1, Ok stations) ->
  gridmet_csv w gridmet_meta_path = Ok gridmet_meta ->
  centroids gridmet_meta = Ok pts ->
  KDTree pts = Ok t ->
  forall fid,
    In (Print (MsgNoMatch fid))
       (fst (join_station_to_gridmet w station_list gridmet_meta_path
               out_path))
    <->
    exists s e,
      In s stations /\ FID s = fid /\
      query t (STATION_LAT s, STATION_LON s) = Raise e.
Proof.
  intros Hs Hm Hc Ht fid.
  rewrite (join_unfold w _ _ out_path _ _ _ _ _ Hs Hm Hc Ht).
  assert (Hdiag : In (Print (MsgNoMatch fid)) (diagnostics t stations) <->
            exists s e, In s stations /\ FID s = fid /\
              query t (STATION_LAT s, STATION_LON s) = Raise e).
  { unfold diagnostics. rewrite in_map_iff. split.
    - intros [s [Heq Hin]]. apply filter_In in Hin. destruct Hin as [Hin Hf].
      inversion Heq. unfold assigned in Hf.
      destruct (query t (STATION_LAT s, STATION_LON s)) as [ind|e] eqn:Eq;
        [discriminate|].
      now exists s, e.
    - intros (s & e & Hin & Hfid & Hq). exists s. split; [now rewrite Hfid|].
      apply filter_In. split; [exact Hin|].
      now rewrite (assigned_raise t s e Hq). }
  assert (Hev1 : ~ In (Print (MsgNoMatch fid)) ev1).
  { intro Hin. apply (read_station_list_no_diagnostic w station_list fid).
    now rewrite Hs. }
  rewrite <- Hdiag.
  destruct (gridmet_id_astype_int (final_column t stations)) as [ids|e];
    [destruct (write_error w (default_to "merged_input.csv" out_path))|];
    cbn [fst]; split; intro Hin.
  - apply in_app_or in Hin. destruct Hin as [Hin|[Hin|Hin]];
      [contradiction | discriminate | exact Hin].
  - apply in_or_app. right. now right.
  - apply in_app_or in Hin. destruct Hin as [Hin|[Hin|Hin]];
      [contradiction | discriminate |].
    apply in_app_or in Hin. destruct Hin as [Hin|[Hin|[]]];
      [exact Hin | discriminate].
  - apply in_or_app. right. right. apply in_or_app. now left.
  - apply in_app_or in Hin. destruct Hin as [Hin|[Hin|Hin]];
      [contradiction | discriminate | exact Hin].
  - apply in_or_app. right. now right.
Qed.

(** X16. A normal run of [main] begins with the banner, which names the
    output path given (or [merged_input.csv]) joined to the working
    directory, and it saves exactly one table, at that output path as
    given. *)
Theorem main_saves_where_it_announces (station_file : string)
    (gridmet_meta_file out_path : option string) (ev : list event) :
  main w station_file gridmet_meta_file out_path = (ev, Ok tt) ->
  exists station_csv_path gridmet_csv_path rest table,
    ev = Print (MsgPaths station_csv_path gridmet_csv_path
                  (path_join w (getcwd w)
                     (default_to "merged_input.csv" out_path))) :: rest /\
    In (ToCsv (default_to "merged_input.csv" out_path) table) rest /\
    (forall path table',
       In (ToCsv path table') ev ->
       path = default_to "merged_input.csv" out_path /\ table' = table).
Proof.
  unfold main.
  destruct (path_exists w (default_to "gridmet_cell_data.csv"
                             gridmet_meta_file)); cbn [negb];
    [|discriminate].
  rewrite bind_emit.
  set (saved := default_to "merged_input.csv" out_path).
  destruct (join_station_to_gridmet w station_file
              (default_to "gridmet_cell_data.csv" gridmet_meta_file)
              (Some saved)) as [rest r] eqn:Ej.
  cbn [fst snd]. intro H. inversion H; subst ev r. clear H.
  destruct (join_ok_inv w _ _ _ _ Ej)
    as (ev1 & stations & gridmet_meta & pts & t & ids
        & Hs & Hm & Hc & Ht & Hids & Hne & Hev).
  assert (Hsaved : default_to "merged_input.csv" (Some saved) = saved).
  { unfold saved, default_to. destruct out_path as [p|]; simpl; [|reflexivity].
    destruct (truthy_str p) eqn:Ep; simpl; [now rewrite Ep | reflexivity]. }
  rewrite Hsaved in Hev.
  eexists _, _, rest, _. split; [reflexivity|]. split.
  - rewrite Hev. apply in_or_app. right. right. left. reflexivity.
  - intros path table' [Hin|Hin]; [discriminate|].
    rewrite Hev in Hin. apply in_app_or in Hin. destruct Hin as [Hin|Hin].
    + exfalso.
      apply (read_station_list_saves_nothing w station_file path table').
      now rewrite Hs.
    + destruct Hin as [Hin|[Hin|[]]]; [discriminate|].
      inversion Hin. split; reflexivity.
Qed.

End WithIndex.
End JoinRuns.

(** ** The further properties at sample inputs *)

Module FurtherWitnesses.
Import PyFacts MatchFacts ReaderFacts JoinFacts MergeFacts RunFacts Sample.
Import LinearScan ReaderPaths JoinRuns.
Open Scope string_scope.
Open Scope list_scope.

Lemma read_station_list_succeeds_iff_witness :
  let w := Sample.world Sample.rows_missing Sample.cells0 Sample.files in
  (exists stations, snd (read_station_list w "stations.csv") = Ok stations)
  <->
  (forall r, In r Sample.rows_missing ->
     exists f, In f (listdir w (searched_dir w "stations.csv")) /\
               py_in (split_get0 (Raw.FileName r)) f = true).
Proof.
  intro w.
  apply (read_station_list_succeeds_iff w "stations.csv" Sample.rows_missing).
  reflexivity.
Defined.

Lemma read_station_list_keeps_data_witness :
  let w := Sample.world Sample.rows_ok Sample.cells0 Sample.files in
  exists stations,
    snd (read_station_list w "stations.csv") = Ok stations /\
    List.length stations = List.length Sample.rows_ok /\
    Forall2 same_station_data Sample.rows_ok stations.
Proof.
  intro w. eexists. split; [reflexivity|].
  apply (read_station_list_keeps_data w "stations.csv"); reflexivity.
Defined.

Lemma station_file_is_first_match_witness :
  let w := Sample.world Sample.rows_ok Sample.cells0 Sample.files in
  exists stations,
    snd (read_station_list w "stations.csv") = Ok stations /\
    Forall2
      (fun r s =>
         exists f later,
           filter (py_in (split_get0 (Raw.FileName r)))
             (listdir w (searched_dir w "stations.csv")) = f :: later /\
           STATION_FILE_PATH s
           = abspath w (path_join w (fst (path_split w "stations.csv")) f))
      Sample.rows_ok stations.
Proof.
  intro w. eexists. split; [reflexivity|].
  apply (station_file_is_first_match w "stations.csv" Sample.rows_ok).
  - reflexivity.
  - repeat constructor; discriminate.
  - intros r r' f later [<-|[<-|[]]] [<-|[<-|[]]] Hf;
      vm_compute in Hf; inversion Hf; subst f; discriminate.
  - reflexivity.
Defined.

Lemma underscore_name_takes_first_entry_witness :
  let w := Sample.world EdgeSample.rows_underscore Sample.cells0 Sample.files in
  exists stations,
    snd (read_station_list w "stations.csv") = Ok stations /\
    Forall2
      (fun r s =>
         split_get0 (Raw.FileName r) = "" ->
         STATION_FILE_PATH s = "/data/stations.csv")
      EdgeSample.rows_underscore stations.
Proof.
  intro w. eexists. split; [reflexivity|].
  apply (underscore_name_takes_first_entry w "stations.csv"
           EdgeSample.rows_underscore _ "stations.csv"
           ["A1_daily.xlsx"; "B2_daily.xlsx"]).
  - reflexivity.
  - reflexivity.
  - repeat constructor; discriminate.
  - intros r r' f later [<-|[<-|[]]] [<-|[<-|[]]] Hf;
      vm_compute in Hf; inversion Hf; subst f; discriminate.
  - reflexivity.
Defined.

Lemma join_succeeds_iff_witness :
  let w := Sample.world Sample.rows_ok Sample.cells0 Sample.files in
  exists ev1 stations pts t,
    read_station_list w "stations.csv" = (ev1, Ok stations) /\
    centroids Sample.cells0 = Ok pts /\
    @KDTree linear_scan pts = Ok t /\
    ((exists ev,
        @join_station_to_gridmet linear_scan w "stations.csv"
          "gridmet_cell_data.csv" None = (ev, Ok tt))
     <->
     (stations <> [] /\
      (forall s, In s stations ->
         exists ind,
           @query linear_scan t (STATION_LAT s, STATION_LON s) = Ok ind) /\
      write_error w (default_to "merged_input.csv" None) = None)) /\
    (forall ev,
       @join_station_to_gridmet linear_scan w "stations.csv"
         "gridmet_cell_data.csv" None = (ev, Ok tt) ->
       exists table,
         ev = ev1 ++ [ReadCsv "gridmet_cell_data.csv";
                      ToCsv (default_to "merged_input.csv" None) table]).
Proof.
  intro w. eexists _, _, _, _.
  split; [reflexivity|]. split; [reflexivity|]. split; [reflexivity|].
  refine (@join_succeeds_iff linear_scan w "stations.csv"
            "gridmet_cell_data.csv" None _ _ Sample.cells0 _ _
            eq_refl eq_refl eq_refl eq_refl).
Defined.

Lemma unwritable_output_raises_witness :
  @join_station_to_gridmet linear_scan
    (Sample.world_read_only Sample.rows_ok Sample.cells0 Sample.files)
    "stations.csv" "gridmet_cell_data.csv" (Some "out/joined.csv")
  = ([ReadCsv "stations.csv"; ListDir "/data"]
       ++ [ReadCsv "gridmet_cell_data.csv"],
     Raise FileNotFoundError).
Proof.
  refine (@unwritable_output_raises linear_scan
            (Sample.world_read_only Sample.rows_ok Sample.cells0 Sample.files)
            "stations.csv" "gridmet_cell_data.csv" (Some "out/joined.csv")
            _ _ Sample.cells0 _ _ FileNotFoundError
            eq_refl eq_refl eq_refl eq_refl _ _ eq_refl).
  - discriminate.
  - intros s [<-|[<-|[]]]; eexists; reflexivity.
Defined.

Lemma empty_station_table_raises_witness :
  @join_station_to_gridmet linear_scan
    (Sample.world [] Sample.cells0 Sample.files)
    "stations.csv" "gridmet_cell_data.csv" None
  = ([ReadCsv "stations.csv"; ListDir "/data";
      ReadCsv "gridmet_cell_data.csv"],
     Raise AttributeError).
Proof.
  refine (@empty_station_table_raises linear_scan
            (Sample.world [] Sample.cells0 Sample.files)
            "stations.csv" "gridmet_cell_data.csv" None Sample.cells0 _ _
            eq_refl eq_refl eq_refl eq_refl).
Defined.

Lemma metadata_without_coordinate_aborts_witness :
  let w := Sample.world Sample.rows_ok EdgeSample.cells_nan Sample.files in
  exists e,
    @join_station_to_gridmet linear_scan w "stations.csv"
      "gridmet_cell_data.csv" None
    = (fst (read_station_list w "stations.csv")
         ++ [ReadCsv "gridmet_cell_data.csv"], Raise e) /\
    (e = ValueError \/ e = TypeError).
Proof.
  intro w.
  destruct (@metadata_without_coordinate_aborts linear_scan w "stations.csv"
              "gridmet_cell_data.csv" None
              (fst (read_station_list w "stations.csv"))
              (match snd (read_station_list w "stations.csv") with
               | Ok stations => stations
               | Raise _ => []
               end)
              EdgeSample.cells_nan
              {| GRIDMET_ID := 1; LAT := NaN; LON := Float (-119);
                 ELEV_M := Float 1500 |}
              eq_refl eq_refl (or_intror (or_introl eq_refl))
              (or_introl (or_introl eq_refl)))
    as (e & Hrun & _ & Hkind).
  exists e. split; [exact Hrun|]. apply Hkind.
  intros g' [<-|[<-|[]]]; vm_compute; discriminate.
Defined.

Lemma positional_metadata_joins_chosen_cell_witness :
  let w := Sample.world Sample.rows_ok Sample.cells0 Sample.files in
  let run := @join_station_to_gridmet linear_scan w "stations.csv"
               "gridmet_cell_data.csv" None in
  exists stations pts t,
    snd (read_station_list w "stations.csv") = Ok stations /\
    centroids Sample.cells0 = Ok pts /\
    @KDTree linear_scan pts = Ok t /\
    forall path table row,
      In (ToCsv path table) (fst run) -> In row (body table) ->
      exists s ind g pt,
        In s stations /\
        @query linear_scan t (STATION_LAT s, STATION_LON s) = Ok ind /\
        nth_error Sample.cells0 ind = Some g /\
        Centroid.gridMET_centroid (LAT g) (LON g) = Ok pt /\
        nth_error pts ind = Some pt /\
        row = [ Int (Z.of_nat ind); LAT g; LON g; ELEV_M g;
                Int (FID s); STATION_LAT s; STATION_LON s;
                STATION_ELEV_M s; Str (STATION_FILE_PATH s) ].
Proof.
  intros w run.
  apply (@positional_metadata_joins_chosen_cell linear_scan w "stations.csv"
           "gridmet_cell_data.csv" None (fst run) Sample.cells0);
    reflexivity.
Defined.

Lemma unmatched_identifier_dropped_silently_witness :
  let w := Sample.world Sample.rows_ok Sample.cells1 Sample.files in
  let run := @join_station_to_gridmet linear_scan w "stations.csv"
               "gridmet_cell_data.csv" None in
  exists stations gridmet_meta pts t,
    snd (read_station_list w "stations.csv") = Ok stations /\
    gridmet_csv w "gridmet_cell_data.csv" = Ok gridmet_meta /\
    centroids gridmet_meta = Ok pts /\
    @KDTree linear_scan pts = Ok t /\
    (forall fid, ~ In (Print (MsgNoMatch fid)) (fst run)) /\
    forall s ind,
      In s stations ->
      @query linear_scan t (STATION_LAT s, STATION_LON s) = Ok ind ->
      (forall g, In g gridmet_meta -> GRIDMET_ID g <> Z.of_nat ind) ->
      forall path table row,
        In (ToCsv path table) (fst run) -> In row (body table) ->
        forall id g, row <> out_row (s, id, g).
Proof.
  intros w run.
  apply (@unmatched_identifier_dropped_silently linear_scan w "stations.csv"
           "gridmet_cell_data.csv" None (fst run)).
  reflexivity.
Defined.

Lemma grid_columns_determined_by_identifier_witness :
  let w := Sample.world Sample.rows_ok Sample.cells0 Sample.files in
  let run := @join_station_to_gridmet linear_scan w "stations.csv"
               "gridmet_cell_data.csv" None in
  snd run = Ok tt /\
  forall path table row row',
    In (ToCsv path table) (fst run) ->
    In row (body table) -> In row' (body table) ->
    nth 0 row NaN = nth 0 row' NaN ->
    nth 1 row NaN = nth 1 row' NaN /\
    nth 2 row NaN = nth 2 row' NaN /\
    nth 3 row NaN = nth 3 row' NaN.
Proof.
  intros w run. split; [reflexivity|].
  apply (@grid_columns_determined_by_identifier linear_scan w "stations.csv"
           "gridmet_cell_data.csv" None (fst run) Sample.cells0).
  - reflexivity.
  - reflexivity.
  - repeat constructor; simpl; intuition discriminate.
Defined.

Lemma diagnostics_name_the_failed_stations_witness :
  let w := Sample.world Sample.rows_text Sample.cells0 Sample.files in
  exists stations pts t,
    snd (read_station_list w "stations.csv") = Ok stations /\
    centroids Sample.cells0 = Ok pts /\
    @KDTree linear_scan pts = Ok t /\
    (In (Print (MsgNoMatch 8))
       (fst (@join_station_to_gridmet linear_scan w "stations.csv"
               "gridmet_cell_data.csv" None))
     <->
     exists s e,
       In s stations /\ FID s = 8%Z /\
       @query linear_scan t (STATION_LAT s, STATION_LON s) = Raise e).
Proof.
  intro w. eexists _, _, _.
  split; [reflexivity|]. split; [reflexivity|]. split; [reflexivity|].
  refine (@diagnostics_name_the_failed_stations linear_scan w "stations.csv"
            "gridmet_cell_data.csv" None _ _ Sample.cells0 _ _
            eq_refl eq_refl eq_refl eq_refl 8%Z).
Defined.

Lemma main_saves_where_it_announces_witness :
  let w := Sample.world Sample.rows_ok Sample.cells0 Sample.files in
  let run := @main linear_scan w "stations.csv" None (Some "out/joined.csv") in
  exists station_csv_path gridmet_csv_path rest table,
    fst run
    = Print (MsgPaths station_csv_path gridmet_csv_path
               "/data/out/joined.csv") :: rest /\
    In (ToCsv "out/joined.csv" table) rest /\
    (forall path table',
       In (ToCsv path table') (fst run) ->
       path = "out/joined.csv" /\ table' = table).
Proof.
  intros w run.
  apply (@main_saves_where_it_announces linear_scan w "stations.csv" None
           (Some "out/joined.csv") (fst run)).
  reflexivity.
Defined.

End FurtherWitnesses.
